(** * node-mongo: order builder, document adapter and proximity adapter

    A shallow embedding of [base/helpers.js] (MongoHelpers),
    [base/adapter.js] (BaseAdapter) and [adapters/user-activity.js]
    (UserActivityAdapter), followed by the properties of the
    specification that can be settled on it.

    Conventions of the embedding.
    - A JavaScript value is a term of [Js.value].  Numbers are the integers
      (sort directions, counts and the driver's [ok] flag are integers);
      NaN and fractions do not occur.
    - A string is a sequence of UTF-16 code units below 256, one [ascii]
      per code unit.
    - An object is the list of its own properties in insertion order;
      assignment overwrites in place or appends.  (The engine's special
      ordering of array-index keys is not modelled.)  The name
      "__proto__" is no property of a plain object: assigning a number
      to it stores nothing.
    - A synchronous computation is a [Js.result]: it returns or throws.
    - A promise is modelled by the state it finally reaches
      ([Store.settled]), for a store whose replies are given by a function
      of the command issued. *)

From Stdlib Require Import ZArith List String Ascii Bool Lia.
Import ListNotations.

Open Scope string_scope.
Open Scope Z_scope.

(* ================================================================= *)
(** ** JavaScript values and primitives *)

Module Js.

#[warnings="-register-all"]
Inductive value : Type :=
| VUndefined
| VNull
| VBool (b : bool)
| VNum (n : Z)
| VStr (s : string)
| VArr (elems : list value)
| VObj (props : list (string * value)).

(** Errors: [AssertionError] is what [Hoek.assert] throws (the spec's
    GuardViolation); [StoreError mongo e] is an error coming out of the
    driver, [mongo] telling whether it is an instance of [MongoError]. *)
Inductive error : Type :=
| AssertionError (msg : string)
| TypeError (msg : string)
| StoreError (mongo : bool) (payload : value).

Inductive result (A : Type) : Type :=
| Return (a : A)
| Throw (e : error).

Arguments Return {A} a.
Arguments Throw {A} e.

Definition bind {A B : Type} (m : result A) (k : A -> result B) : result B :=
  match m with
  | Return a => k a
  | Throw e => Throw e
  end.

(** ToBoolean. *)
Definition truthy (v : value) : bool :=
  match v with
  | VUndefined | VNull => false
  | VBool b => b
  | VNum n => negb (n =? 0)
  | VStr s => negb (s =? "")%string
  | VArr _ | VObj _ => true
  end.

(** [a || b]. *)
Definition or_else (a b : value) : value := if truthy a then a else b.

Fixpoint lookup (k : string) (ps : list (string * value)) : option value :=
  match ps with
  | [] => None
  | (k', x) :: ps' => if (k =? k')%string then Some x else lookup k ps'
  end.

(** [ps[k] = x] on the property list of an object. *)
Fixpoint assign (k : string) (x : value) (ps : list (string * value))
  : list (string * value) :=
  match ps with
  | [] => [(k, x)]
  | (k', y) :: ps' =>
      if (k =? k')%string then (k, x) :: ps' else (k', y) :: assign k x ps'
  end.

(** [obj[k] = x] on a plain object, for a primitive [x].  Under the name
    "__proto__" an object inherits an accessor whose setter ignores a
    primitive: no property is created. *)
Definition assignPrimitive (k : string) (x : value)
  (ps : list (string * value)) : list (string * value) :=
  if (k =? "__proto__")%string then ps else assign k x ps.

Fixpoint remove (k : string) (ps : list (string * value))
  : list (string * value) :=
  match ps with
  | [] => []
  | (k', y) :: ps' =>
      if (k =? k')%string then remove k ps' else (k', y) :: remove k ps'
  end.

(** [v.k]: a TypeError on [null] and [undefined], [undefined] for a
    property that is not there. *)
Definition prop (v : value) (k : string) : result value :=
  match v with
  | VUndefined | VNull =>
      Throw (TypeError ("Cannot read property '" ++ k ++ "'"))
  | VObj ps =>
      Return (match lookup k ps with Some x => x | None => VUndefined end)
  | _ => Return VUndefined
  end.

(** [v.k = x] in strict mode: only objects take the property.  (Named
    properties of arrays are outside the model.) *)
Definition setProp (v : value) (k : string) (x : value) : result value :=
  match v with
  | VObj ps => Return (VObj (assign k x ps))
  | _ => Throw (TypeError ("Cannot set property '" ++ k ++ "'"))
  end.

(** [delete v.k] on a value that is neither [null] nor [undefined]. *)
Definition delProp (v : value) (k : string) : value :=
  match v with
  | VObj ps => VObj (remove k ps)
  | _ => v
  end.

(** [Hoek.assert(cond, msg)]. *)
Definition assert (cond : bool) (msg : string) : result unit :=
  if cond then Return tt else Throw (AssertionError msg).

(** *** Strings *)

(** WhiteSpace and LineTerminator code units below 256:
    TAB, LF, VT, FF, CR, SP and NBSP. *)
Definition isWhiteSpace (c : ascii) : bool :=
  let n := nat_of_ascii c in
  ((n =? 9) || (n =? 10) || (n =? 11) || (n =? 12) || (n =? 13)
   || (n =? 32) || (n =? 160))%nat.

Fixpoint trimStart (s : string) : string :=
  match s with
  | EmptyString => EmptyString
  | String c s' => if isWhiteSpace c then trimStart s' else s
  end.

Fixpoint trimEnd (s : string) : string :=
  match s with
  | EmptyString => EmptyString
  | String c s' =>
      match trimEnd s' with
      | EmptyString => if isWhiteSpace c then EmptyString else String c EmptyString
      | t => String c t
      end
  end.

(** [s.trim()]. *)
Definition trim (s : string) : string := trimEnd (trimStart s).

(** [s.substr(start, len)] and [s.substr(start)] for non-negative
    arguments. *)
Definition substr (s : string) (start len : nat) : string :=
  substring start len s.

Definition substrFrom (s : string) (start : nat) : string :=
  substring start (String.length s - start) s.

(** [s.split(sep)] for a one-character separator: the empty string
    splits into one empty piece. *)
Fixpoint split (sep : ascii) (s : string) : list string :=
  match s with
  | EmptyString => [EmptyString]
  | String c s' =>
      if Ascii.eqb c sep then EmptyString :: split sep s'
      else match split sep s' with
           | t :: ts => String c t :: ts
           | [] => [String c EmptyString]
           end
  end.

(** [arr.join(sep)] on an array of strings. *)
Fixpoint join (sep : string) (l : list string) : string :=
  match l with
  | [] => EmptyString
  | [x] => x
  | x :: xs => (x ++ sep ++ join sep xs)%string
  end.

(** Structural equality of values. *)
Fixpoint value_eqb (a b : value) {struct a} : bool :=
  match a, b with
  | VUndefined, VUndefined => true
  | VNull, VNull => true
  | VBool x, VBool y => Bool.eqb x y
  | VNum x, VNum y => (x =? y)
  | VStr x, VStr y => (x =? y)%string
  | VArr xs, VArr ys =>
      (fix go (xs ys : list value) {struct xs} : bool :=
         match xs, ys with
         | [], [] => true
         | x :: xs', y :: ys' => value_eqb x y && go xs' ys'
         | _, _ => false
         end) xs ys
  | VObj ps, VObj qs =>
      (fix go (ps qs : list (string * value)) {struct ps} : bool :=
         match ps, qs with
         | [], [] => true
         | (k, x) :: ps', (l, y) :: qs' =>
             (k =? l)%string && value_eqb x y && go ps' qs'
         | _, _ => false
         end) ps qs
  | _, _ => false
  end.

End Js.

Import Js.

Notation "x <- m ;; k" := (Js.bind m (fun x => k))
  (at level 61, m at next level, right associativity).
Notation "' pat <- m ;; k" := (Js.bind m (fun x => match x with pat => k end))
  (at level 61, pat pattern, m at next level, right associativity).

(* ================================================================= *)
(** ** The entity schema (model class)

    The capability contract the adapters consume.  An instance is the
    property list of the object [new modelClass(form)] builds; the
    optional members are [beforeSave] and [toQueryObject]. *)

Module Model.

Definition instance : Type := list (string * value).

Record Schema : Type := {
  construct : value -> instance;
  collectionName : string;
  defaultOrder : value;
  beforeSave : option (bool -> instance -> instance);
  toInsertObject : instance -> value;
  toFormObject : instance -> value;
  toUpsertObject : instance -> value;
  toQueryObject : option (instance -> value -> value)
}.

(** [if (m.beforeSave) { m.beforeSave(isInsert); }] *)
Definition runBeforeSave (S : Schema) (isInsert : bool) (m : instance)
  : instance :=
  match beforeSave S with
  | Some hook => hook isInsert m
  | None => m
  end.

End Model.

Import Model.

(* ================================================================= *)
(** ** MongoHelpers (base/helpers.js) *)

Module MongoHelpers.

(** The closure [buildArrayFunc] of [buildOrder]. *)
Definition buildArrayStep (acc : result (list (string * value)))
  (element : value) : result (list (string * value)) :=
  results <- acc ;;
  match element with
  | VStr s =>
      let element := trim s in
      if (substr element 0 1 =? "-")%string
      then Return (assignPrimitive (substrFrom element 1) (VNum (-1)) results)
      else Return (assignPrimitive element (VNum 1) results)
  | _ => Throw (TypeError "element.trim is not a function")
  end.

Definition buildArrayFunc (arrs : list value) : result value :=
  results <- fold_left buildArrayStep arrs (Return []) ;;
  Return (VObj results).

Definition buildOrder (order : value) : result value :=
  if negb (truthy order) then Return VNull
  else match order with
       | VArr arrs => buildArrayFunc arrs
       | VObj _ => Return order
       | VStr s => buildArrayFunc (map VStr (split "," s))
       | _ => Return VUndefined
       end.

(** [buildSortOptions(model, opts)]: the value returned, paired with the
    options object as the call leaves it. *)
Definition buildSortOptions (model : Schema) (opts : value)
  : result (value * value) :=
  let opts := or_else opts (VObj []) in
  order <- prop opts "order" ;;
  if truthy order then
    sortOptions <- buildOrder order ;;
    Return (sortOptions, delProp opts "order")
  else
    sort <- prop opts "sort" ;;
    if truthy sort then
      sortOptions <- buildOrder sort ;;
      Return (sortOptions, opts)
    else if truthy (defaultOrder model) then
      sortOptions <- buildOrder (defaultOrder model) ;;
      Return (sortOptions, opts)
    else Return (VNull, opts).

Definition buildFindOptions (model : Schema) (opts : value) : result value :=
  let opts := or_else opts (VObj []) in
  '(sortOptions, opts) <- buildSortOptions model opts ;;
  setProp opts "sort" sortOptions.

End MongoHelpers.

(* ================================================================= *)
(** ** The store, as the adapters see it

    [connect] is the connection pool's [connect(key)]; [exec] is the
    driver's reply to one command on a collection.  Either promise may be
    fulfilled, rejected, or never settle. *)

Module Store.

Inductive call : Type :=
| Command (coll func : string) (args : list value)
    (* collection[func](...args) *)
| FindCount (coll : string) (filter : value) (limit : Z)
    (* collection.find(filter).limit(n).count() *)
| Aggregate (coll : string) (pipeline : list value).
    (* collection.aggregate(pipeline).toArray() *)

Inductive settled : Type :=
| Fulfilled (v : value)
| Rejected (e : error)
| Pending.

Record t : Type := {
  connect : string -> settled;
  exec : call -> settled
}.

(** What one adapter call leaves behind: the commands that reached the
    store, the final state of the promise handed to the caller, and the
    final states of the promises nobody waits for. *)
Record run : Type := {
  issued : list call;
  state : settled;
  background : list settled
}.

(** [p.then(result => ...)] where the callback returns
    [BPromise.resolve(x)] or throws. *)
Definition settle_then (p : settled) (f : value -> result value) : settled :=
  match p with
  | Fulfilled v =>
      match f v with
      | Return x => Fulfilled x
      | Throw e => Rejected e
      end
  | Rejected e => Rejected e
  | Pending => Pending
  end.

Definition then_ (r : run) (f : value -> result value) : run :=
  {| issued := issued r;
     state := settle_then (state r) f;
     background := background r |}.

Definition isMongoError (e : error) : bool :=
  match e with
  | StoreError mongo _ => mongo
  | _ => false
  end.

(** The two [catch] clauses shared by [query], [getMany] and [exists],
    inside [new BPromise((resolve, reject) => ...)]: a MongoError is
    rejected; any other error goes through [catchException], which
    rethrows it in debug mode, so that [reject] is never reached. *)
Definition caught (isDebug : bool) (p : settled) : settled :=
  match p with
  | Fulfilled r => Fulfilled r
  | Rejected e =>
      if isMongoError e then Rejected e
      else if isDebug then Pending else Rejected e
  | Pending => Pending
  end.

End Store.

Import Store.

(* ================================================================= *)
(** ** BaseAdapter (base/adapter.js) *)

Module BaseAdapter.

(** What the adapter imports: [helpers.Model.toSimpleObject] and
    [helpers.Data.isEmpty] of node-helpers, the driver's [ObjectID]
    constructor and the [toString] of the identifiers it builds,
    [JSON.stringify], and the configured [isDebug]; and, from the
    engine, whether a string, an array or an object is greater than 0
    once converted to a number, a conversion that is not modelled. *)
Record Runtime : Type := {
  toSimpleObject : value -> value;
  isEmpty : value -> bool;
  ObjectID : value -> result value;
  idToString : value -> string;
  stringify : value -> string;
  isDebug : bool;
  positive : value -> bool
}.

Record Adapter : Type := {
  modelClass : Schema;
  configKey : string
}.

Section Operations.

Variable R : Runtime.
Variable A : Adapter.
Variable st : Store.t.

Local Abbreviation S := (modelClass A).

(** [query(funcName, ...args)].  When the connection does not come, the
    promise it returns never settles. *)
Definition query (funcName : string) (args : list value) : result run :=
  _ <- assert (truthy (VStr funcName)) "funcName must not be null" ;;
  Return
    match connect st (configKey A) with
    | Fulfilled _ =>
        let c := Command (collectionName S) funcName args in
        {| issued := [c];
           state := caught (isDebug R) (exec st c);
           background := [] |}
    | _ => {| issued := []; state := Pending; background := [] |}
    end.

(** [m.toQueryObject ? m.toQueryObject(params)
                     : helpers.Model.toSimpleObject(params)] *)
Definition queryObject (m : instance) (params : value) : value :=
  match toQueryObject S with
  | Some f => f m params
  | None => toSimpleObject R params
  end.

(** The chain of [getOne], [exists] and [deleteOne]:
    [if (form._id) ... else if (model.toQueryObject) ... else ...] *)
Definition idOrQueryObject (m : instance) (form : value) : result value :=
  id <- prop form "_id" ;;
  if truthy id then
    oid <- ObjectID R id ;;
    Return (VObj [("_id", oid)])
  else Return (queryObject m form).

Definition insertOne (model : value) : result run :=
  let insertModel := construct S model in
  let insertModel := runBeforeSave S true insertModel in
  let requestDoc := toInsertObject S insertModel in
  _ <- assert (negb (isEmpty R requestDoc))
         "Request document must not be empty" ;;
  q <- query "insertOne" [requestDoc] ;;
  Return (then_ q (fun result =>
    insertedId <- prop result "insertedId" ;;
    Return (VObj (assign "_id" insertedId insertModel)))).

Definition updateOne (model params : value) : result run :=
  let updateModel := construct S model in
  let queryParams := queryObject updateModel params in
  let updateModel := runBeforeSave S false updateModel in
  let requestDoc := toFormObject S updateModel in
  _ <- assert (negb (isEmpty R queryParams))
         ("Query params must not be empty. Data: " ++ stringify R params) ;;
  _ <- assert (negb (isEmpty R requestDoc))
         "Request document must not be empty" ;;
  q <- query "updateOne" [queryParams; VObj [("$set", requestDoc)]] ;;
  Return (then_ q (fun result => prop result "modifiedCount")).

Definition updateOneSimple (form query_ : value) : result run :=
  let params := toSimpleObject R form in
  let queryParams := toSimpleObject R query_ in
  _ <- assert (truthy query_) "Empty query, cannot update data" ;;
  q <- query "updateOne" [queryParams; VObj [("$set", params)]] ;;
  Return (then_ q (fun result => prop result "modifiedCount")).

Definition updateMany (model params : value) : result run :=
  let updateModel := construct S model in
  let queryParams := queryObject updateModel params in
  let updateModel := runBeforeSave S false updateModel in
  let requestDoc := toFormObject S updateModel in
  _ <- assert (negb (isEmpty R queryParams))
         "Query parms must not be empty" ;;
  _ <- assert (negb (isEmpty R requestDoc))
         "Request document must not be empty" ;;
  q <- query "updateMany" [queryParams; VObj [("$set", requestDoc)]] ;;
  Return (then_ q (fun result => prop result "modifiedCount")).

Definition updateAll (model : value) : result run :=
  let updateModel := construct S model in
  let queryParams := VObj [] in
  let updateModel := runBeforeSave S false updateModel in
  let requestDoc := toFormObject S updateModel in
  _ <- assert (negb (isEmpty R requestDoc))
         "Request document must not be empty" ;;
  q <- query "updateMany" [queryParams; VObj [("$set", requestDoc)]] ;;
  Return (then_ q (fun result => prop result "modifiedCount")).

Definition updateAllSimple (params : value) : result run :=
  let queryParams := VObj [] in
  let requestDoc := toSimpleObject R params in
  _ <- assert (negb (isEmpty R requestDoc))
         "Request document must not be empty" ;;
  q <- query "updateMany" [queryParams; VObj [("$set", requestDoc)]] ;;
  Return (then_ q (fun result => prop result "modifiedCount")).

Definition updateManySimple (form query_ : value) : result run :=
  let params := toSimpleObject R form in
  let queryParams := toSimpleObject R query_ in
  _ <- assert (negb (isEmpty R query_)) "Query params must not be empty" ;;
  q <- query "updateMany" [queryParams; VObj [("$set", params)]] ;;
  Return (then_ q (fun result => prop result "modifiedCount")).

Definition upsertOne (model : value) : result run :=
  let updateModel := construct S model in
  let updateModel := runBeforeSave S true updateModel in
  let requestDoc := toUpsertObject S updateModel in
  queryParams <- prop requestDoc "$setOnInsert" ;;
  _ <- assert (negb (isEmpty R queryParams))
         "Query params must not be empty" ;;
  _ <- assert (negb (isEmpty R requestDoc))
         "Request document must not be empty" ;;
  q <- query "updateOne"
         [queryParams; requestDoc; VObj [("upsert", VBool true)]] ;;
  Return (then_ q (fun result =>
    upsertedId <- prop result "upsertedId" ;;
    if truthy upsertedId then
      id <- prop upsertedId "_id" ;;
      idString <- (match id with
                   | VUndefined | VNull =>
                       Throw (TypeError "Cannot read property 'toString'")
                   | _ => Return (VStr (idToString R id))
                   end) ;;
      Return (VObj (assign "_id" idString updateModel))
    else Return (VObj updateModel))).

Definition getOne (form opts : value) : result run :=
  let model := construct S VUndefined in
  params <- idOrQueryObject model form ;;
  opts <- MongoHelpers.buildFindOptions S opts ;;
  q <- query "findOne" [params; opts] ;;
  Return (then_ q (fun result => Return result)).

Definition getOneSimple (form : value) : result run :=
  let params := toSimpleObject R form in
  _ <- assert (negb (isEmpty R params)) "Params must not be empty" ;;
  q <- query "findOne" [params] ;;
  Return (then_ q (fun result => Return result)).

(** The callback shared by [getOneAndUpdate] and [getOneAndUpsert]. *)
Definition unwrapEnvelope (envelope : value) : result value :=
  ok <- prop envelope "ok" ;;
  if negb (truthy ok) then Return VNull
  else prop envelope "value".

Definition getOneAndUpdate (form query_ opts : value) : result run :=
  let updateModel := construct S form in
  let queryParams := queryObject updateModel query_ in
  let updateModel := runBeforeSave S false updateModel in
  let requestDoc := toFormObject S updateModel in
  _ <- assert (negb (isEmpty R queryParams))
         ("Query params must not be empty. Data: "
          ++ stringify R queryParams) ;;
  _ <- assert (negb (isEmpty R requestDoc))
         "Request document must not be empty" ;;
  q <- query "findOneAndUpdate"
         [queryParams; VObj [("$set", requestDoc)]; opts] ;;
  Return (then_ q unwrapEnvelope).

Definition getOneAndUpsert (form query_ opts : value) : result run :=
  let updateModel := construct S form in
  let queryParams := queryObject updateModel query_ in
  let updateModel := runBeforeSave S false updateModel in
  let requestDoc := toUpsertObject S updateModel in
  opts <- setProp opts "upsert" (VBool true) ;;
  _ <- assert (negb (isEmpty R queryParams))
         ("Query params must not be empty. Data: "
          ++ stringify R queryParams) ;;
  _ <- assert (negb (isEmpty R requestDoc))
         "Request document must not be empty" ;;
  q <- query "findOneAndUpdate" [queryParams; requestDoc; opts] ;;
  Return (then_ q unwrapEnvelope).

(** [count > 0] *)
Definition greaterThanZero (count : value) : bool :=
  match count with
  | VNum n => 0 <? n
  | VBool b => b
  | VUndefined | VNull => false
  | VStr _ | VArr _ | VObj _ => positive R count
  end.

(** [exists(form)]: everything happens inside
    [new BPromise(...)] after [connect], so nothing is thrown to the
    caller and a failure before the command leaves the promise pending. *)
Definition exists_ (form : value) : run :=
  let model := construct S VUndefined in
  match connect st (configKey A) with
  | Fulfilled _ =>
      match (params <- idOrQueryObject model form ;;
             _ <- assert (negb (isEmpty R params))
                    "Params must not be empty" ;;
             Return params) with
      | Return params =>
          let c := FindCount (collectionName S) params 1 in
          {| issued := [c];
             state := caught (isDebug R)
                        (settle_then (exec st c) (fun count =>
                           Return (VBool (greaterThanZero count))));
             background := [] |}
      | Throw _ => {| issued := []; state := Pending; background := [] |}
      end
  | _ => {| issued := []; state := Pending; background := [] |}
  end.

Definition deleteOne (form : value) : result run :=
  let model := construct S VUndefined in
  params <- idOrQueryObject model form ;;
  _ <- assert (negb (isEmpty R params)) "Params must not be empty" ;;
  q <- query "deleteOne" [params] ;;
  Return (then_ q (fun result => prop result "deletedCount")).

Definition deleteOneSimple (form : value) : result run :=
  let params := toSimpleObject R form in
  _ <- assert (negb (isEmpty R params)) "Params must not be empty" ;;
  q <- query "deleteOne" [params] ;;
  Return (then_ q (fun result => prop result "deletedCount")).

Definition deleteMany (form : value) : result run :=
  let model := construct S VUndefined in
  let params := queryObject model form in
  _ <- assert (negb (isEmpty R params)) "Params must not be empty" ;;
  q <- query "deleteMany" [params] ;;
  Return (then_ q (fun result => prop result "deletedCount")).

Definition deleteManySimple (form : value) : result run :=
  let params := toSimpleObject R form in
  _ <- assert (negb (isEmpty R params)) "Params must not be empty" ;;
  q <- query "deleteMany" [params] ;;
  Return (then_ q (fun result => prop result "deletedCount")).

Definition deleteAll : result run :=
  let params := VObj [] in
  q <- query "deleteMany" [params] ;;
  Return (then_ q (fun result => prop result "deletedCount")).

End Operations.

End BaseAdapter.

(* ================================================================= *)
(** ** UserActivityAdapter (adapters/user-activity.js) *)

Module UserActivityAdapter.

Import BaseAdapter.

(** [logAdapter] is [new this.logAdapterClass()]; [primaryKey] names a
    top-level field of the documents. *)
Record Adapter : Type := {
  base : BaseAdapter.Adapter;
  logAdapter : BaseAdapter.Adapter;
  primaryKey : string
}.

Fixpoint mapM {X Y : Type} (f : X -> result Y) (l : list X)
  : result (list Y) :=
  match l with
  | [] => Return []
  | x :: l' => y <- f x ;; ys <- mapM f l' ;; Return (y :: ys)
  end.

Section Operations.

Variable R : Runtime.
Variable U : Adapter.
Variable st : Store.t.

Local Abbreviation S := (modelClass (base U)).
Local Abbreviation logS := (modelClass (logAdapter U)).

(** The override of [upsertOne].  The activity-log insert and the index
    creation are started and left alone: their promises end up in
    [background].  The upsert command is sent at once; the log insert
    waits for the log adapter's own [connect], and the index creation
    for the upsert's reply: [issued] lists them in that order. *)
Definition upsertOne (model : value) : run :=
  let logModel := construct logS model in
  let insertModel := construct S model in
  match connect st (configKey (base U)) with
  | Fulfilled _ =>
      let logModel := runBeforeSave logS true logModel in
      let insertModel := runBeforeSave S true insertModel in
      let requestLogDoc := toInsertObject logS logModel in
      let requestDoc := toUpsertObject S insertModel in
      match query R (logAdapter U) st "insertOne" [requestLogDoc] with
      | Throw e => {| issued := []; state := Rejected e; background := [] |}
      | Return logQuery =>
          let logRun :=
            then_ logQuery (fun result =>
              _ <- prop result "insertedId" ;; Return VUndefined) in
          match prop requestDoc "$setOnInsert" with
          | Throw e =>
              {| issued := issued logRun;
                 state := Rejected e;
                 background := [state logRun] |}
          | Return queryParams =>
              let c := Command (collectionName S) "updateOne"
                         [queryParams; requestDoc;
                          VObj [("upsert", VBool true)]] in
              match exec st c with
              | Fulfilled result =>
                  let ci := Command (collectionName S) "createIndex"
                              [VObj [("location", VStr "2dsphere")]] in
                  let indexRun :=
                    settle_then (exec st ci)
                      (fun indexName => Return VUndefined) in
                  {| issued := c :: issued logRun ++ [ci];
                     state :=
                       match prop result "upsertedId" with
                       | Return upsertedId =>
                           Fulfilled
                             (VObj (assign "_id" upsertedId insertModel))
                       | Throw e => Rejected e
                       end;
                     background := [state logRun; indexRun] |}
              | other =>
                  {| issued := c :: issued logRun;
                     state := other;
                     background := [state logRun] |}
              end
          end
      end
  | other => {| issued := []; state := other; background := [] |}
  end.

Definition findAroundQuery (geoParams actParams : value)
  : result (list value) :=
  activity <- prop actParams "activity" ;;
  let query_ :=
    match activity with
    | VNull => VObj []
    | _ => VObj [("activity", activity)]
    end in
  geometry <- prop geoParams "geometry" ;;
  maxDistance <- prop geoParams "maxDistance" ;;
  minDistance <- prop geoParams "minDistance" ;;
  Return
    [ VObj [("$geoNear",
             VObj [("near", geometry);
                   ("maxDistance", or_else maxDistance VUndefined);
                   ("minDistance", or_else minDistance VUndefined);
                   ("distanceField", VStr "distance");
                   ("query", query_);
                   ("spherical", VBool true)])];
      VObj [("$sort",
             VObj [("distance", VNum (-1)); ("status", VNum (-1))])];
      VObj [("$group",
             VObj [("_id", VStr ("$" ++ primaryKey U));
                   ("activity", VObj [("$first", VStr "$$ROOT")])])] ].

(** [self.connect().then(db => ...)] around one aggregate command. *)
Definition aggregate (pipeline : result (list value))
  (k : value -> result value) : run :=
  match connect st (configKey (base U)) with
  | Fulfilled _ =>
      match pipeline with
      | Return queryData =>
          let c := Aggregate (collectionName S) queryData in
          {| issued := [c];
             state := settle_then (exec st c) k;
             background := [] |}
      | Throw e => {| issued := []; state := Rejected e; background := [] |}
      end
  | other => {| issued := []; state := other; background := [] |}
  end.

Definition findManyAround (geoParams actParams : value) : run :=
  aggregate (findAroundQuery geoParams actParams) (fun results =>
    match results with
    | VArr elements =>
        response <- mapM (fun element => prop element "activity") elements ;;
        Return (VArr response)
    | _ =>
        _ <- prop results "length" ;;
        Throw (TypeError "results.forEach is not a function")
    end).

(** [aggregate(queryData).limit(1)] appends a [$limit] stage to the
    cursor's pipeline. *)
Definition findOneAround (geoParams actParams : value) : run :=
  aggregate
    (queryData <- findAroundQuery geoParams actParams ;;
     Return (queryData ++ [VObj [("$limit", VNum 1)]])%list)
    (fun results =>
       match results with
       | VArr (first :: _) => prop first "activity"
       | VArr [] => Return VNull
       | _ => _ <- prop results "length" ;; Return VNull
       end).

End Operations.

End UserActivityAdapter.

(* ================================================================= *)
(** ** The store's side of an aggregate command *)

Module Aggregation.

Section Pipeline.

(** The stages the server runs on its own data and geometry
    ([$geoNear], [$sort]) stay abstract. *)
Variable serverStage : value -> list value -> list value.

(** Modelled from the spec: the group stage of the document store, which
    src/ does not contain.  It "groups candidates by a configured primary
    key and keeps only the first document encountered per group"; a
    document without the field falls in the group of [null]. *)
Definition groupKey (pk : string) (doc : value) : value :=
  match doc with
  | VObj ps =>
      match lookup pk ps with
      | Some VUndefined | None => VNull
      | Some v => v
      end
  | _ => VNull
  end.

Fixpoint groupFirst (pk : string) (seen : list value) (docs : list value)
  : list value :=
  match docs with
  | [] => []
  | d :: docs' =>
      let k := groupKey pk d in
      if existsb (value_eqb k) seen then groupFirst pk seen docs'
      else VObj [("_id", k); ("activity", d)]
             :: groupFirst pk (k :: seen) docs'
  end.

Definition runStage (docs : list value) (stage : value) : list value :=
  match stage with
  | VObj [("$group",
           VObj [("_id", VStr (String "$" pk));
                 ("activity", VObj [("$first", VStr "$$ROOT")])])] =>
      groupFirst pk [] docs
  | VObj [("$limit", VNum n)] => firstn (Z.to_nat n) docs
  | _ => serverStage stage docs
  end.

Definition runPipeline (pipeline : list value) (docs : list value)
  : list value :=
  fold_left runStage pipeline docs.

(** The documents that reach the third stage, the group stage, of a
    pipeline run on collection [coll]. *)
Definition candidatesOf (collections : string -> list value) (coll : string)
  (pipeline : list value) : list value :=
  runPipeline (firstn 2 pipeline) (collections coll).

(** A store that answers aggregate commands by running the pipeline on
    the collection, and everything else as [rest] does. *)
Definition docStore (collections : string -> list value) (rest : Store.t)
  : Store.t :=
  {| connect := connect rest;
     exec := fun c =>
       match c with
       | Aggregate coll pipeline =>
           Fulfilled (VArr (runPipeline pipeline (collections coll)))
       | _ => exec rest c
       end |}.

End Pipeline.

End Aggregation.

(* ================================================================= *)
(** ** Definitions used to state the properties *)

Module Props.

(** [v.k] where [v] is known not to be [null] or [undefined]. *)
Definition get (v : value) (k : string) : value :=
  match prop v k with
  | Return x => x
  | Throw _ => VUndefined
  end.

(** The reading of one field token: trimmed; a leading '-' is stripped
    and means descending. *)
Definition descending (token : string) : bool :=
  match trim token with
  | String "-" _ => true
  | _ => false
  end.

Definition tokenField (token : string) : string :=
  match trim token with
  | String "-" rest => rest
  | t => t
  end.

Definition tokenDirection (token : string) : Z :=
  if descending token then -1 else 1.

(** The direction a sequence of tokens gives to a field: that of the
    last token naming it. *)
Fixpoint direction (field : string) (tokens : list string) : option Z :=
  match tokens with
  | [] => None
  | t :: ts =>
      match direction field ts with
      | Some d => Some d
      | None =>
          if (field =? tokenField t)%string then Some (tokenDirection t)
          else None
      end
  end.

(** What one token does to the map under construction. *)
Definition tokenStep (m : list (string * value)) (t : string)
  : list (string * value) :=
  assignPrimitive (tokenField t) (VNum (tokenDirection t)) m.

Fixpoint noComma (s : string) : bool :=
  match s with
  | EmptyString => true
  | String c s' => negb (Ascii.eqb c ",") && noComma s'
  end.

(** The query predicate of a command: its first argument. *)
Definition filterOf (c : Store.call) : option value :=
  match c with
  | Command _ _ (q :: _) => Some q
  | FindCount _ q _ => Some q
  | _ => None
  end.

(** The first document of each key, in the order of first appearance,
    skipping the keys already [seen]. *)
Fixpoint firstPerKey (key : value -> value) (seen : list value)
  (docs : list value) : list value :=
  match docs with
  | [] => []
  | d :: docs' =>
      if existsb (value_eqb (key d)) seen then firstPerKey key seen docs'
      else d :: firstPerKey key (key d :: seen) docs'
  end.

(** The results with key [k]. *)
Definition withKey (key : value -> value) (k : value) (docs : list value)
  : list value :=
  filter (fun d => value_eqb (key d) k) docs.

(** The call throws what [Hoek.assert] throws, and returns no promise. *)
Definition guardViolation (r : result Store.run) : Prop :=
  exists msg, r = Throw (AssertionError msg).

End Props.

(* ================================================================= *)
(** ** Sample data for worked examples *)

Module Sample.

(** Modelled from the spec: [helpers.Model.toSimpleObject] of the
    node-helpers package, which src/ does not contain: "a generic
    shallow-copy-of-non-null-fields projection". *)
Definition toSimpleObject (v : value) : value :=
  match v with
  | VObj ps =>
      VObj (filter (fun kv => match snd kv with
                              | VUndefined | VNull => false
                              | _ => true
                              end) ps)
  | _ => VObj []
  end.

(** Modelled from the spec: [helpers.Data.isEmpty] of the node-helpers
    package, which src/ does not contain: the test for an "empty"
    predicate or document. *)
Definition isEmpty (v : value) : bool :=
  match v with
  | VUndefined | VNull => true
  | VStr EmptyString => true
  | VArr [] => true
  | VObj [] => true
  | _ => false
  end.

(** The driver's identifier constructor takes 12 bytes or 24 hex
    characters; the sample only looks at the length. *)
Definition ObjectID (v : value) : result value :=
  match v with
  | VStr s =>
      if ((String.length s =? 12) || (String.length s =? 24))%nat
      then Return (VObj [("$oid", v)])
      else Throw (TypeError "Argument passed in must be a single String of 12 bytes or a string of 24 hex characters")
  | _ => Throw (TypeError "Argument passed in must be a single String of 12 bytes or a string of 24 hex characters")
  end.

(** The sample engine reads a string of decimal digits, white space
    around it allowed; it takes any other string, and every array and
    object, as not greater than 0. *)
Fixpoint positiveDigits (s : string) : bool :=
  match s with
  | EmptyString => false
  | String c s' =>
      let n := nat_of_ascii c in
      ((49 <=? n) && (n <=? 57) || (n =? 48) && positiveDigits s')%nat
  end.

Fixpoint onlyDigits (s : string) : bool :=
  match s with
  | EmptyString => true
  | String c s' =>
      let n := nat_of_ascii c in
      ((48 <=? n) && (n <=? 57))%nat && onlyDigits s'
  end.

Definition positive (v : value) : bool :=
  match v with
  | VStr s => onlyDigits (trim s) && positiveDigits (trim s)
  | _ => false
  end.

Definition runtime : BaseAdapter.Runtime :=
  {| BaseAdapter.toSimpleObject := toSimpleObject;
     BaseAdapter.isEmpty := isEmpty;
     BaseAdapter.ObjectID := ObjectID;
     BaseAdapter.idToString := fun _ => "id";
     BaseAdapter.stringify := fun _ => "{}";
     BaseAdapter.isDebug := false;
     BaseAdapter.positive := positive |}.

Definition fields (v : value) : instance :=
  match v with
  | VObj ps => ps
  | _ => []
  end.

(** A schema with every capability: the query projection keeps the
    [name] of the form. *)
Definition userSchema : Schema :=
  {| construct := fields;
     collectionName := "users";
     defaultOrder := VStr "name";
     beforeSave := Some (fun isInsert m =>
                     assign "isNew" (VBool isInsert) m);
     toInsertObject := VObj;
     toFormObject := VObj;
     toUpsertObject := fun m =>
       VObj [("$setOnInsert", VObj (Js.remove "isNew" m)); ("$set", VObj m)];
     toQueryObject := Some (fun _ form =>
       match Props.get form "name" with
       | VUndefined | VNull => VObj []
       | n => VObj [("name", n)]
       end) |}.

(** A schema without the optional members. *)
Definition logSchema : Schema :=
  {| construct := fields;
     collectionName := "user_activity_logs";
     defaultOrder := VUndefined;
     beforeSave := None;
     toInsertObject := VObj;
     toFormObject := VObj;
     toUpsertObject := fun m => VObj [("$setOnInsert", VObj m)];
     toQueryObject := None |}.

(** The schema of a proximity adapter: a document is matched on all the
    fields of the model. *)
Definition activitySchema : Schema :=
  {| construct := fields;
     collectionName := "user_activities";
     defaultOrder := VUndefined;
     beforeSave := None;
     toInsertObject := VObj;
     toFormObject := VObj;
     toUpsertObject := fun m => VObj [("$setOnInsert", VObj m)];
     toQueryObject := None |}.

Definition users : BaseAdapter.Adapter :=
  {| BaseAdapter.modelClass := userSchema; BaseAdapter.configKey := "default" |}.

Definition logs : BaseAdapter.Adapter :=
  {| BaseAdapter.modelClass := logSchema; BaseAdapter.configKey := "default" |}.

Definition activities : BaseAdapter.Adapter :=
  {| BaseAdapter.modelClass := activitySchema;
     BaseAdapter.configKey := "default" |}.

Definition activity : UserActivityAdapter.Adapter :=
  {| UserActivityAdapter.base := activities;
     UserActivityAdapter.logAdapter := logs;
     UserActivityAdapter.primaryKey := "userId" |}.

(** A store that fulfils every command with [reply]. *)
Definition replying (reply : value) : Store.t :=
  {| connect := fun _ => Fulfilled (VObj []);
     exec := fun _ => Fulfilled reply |}.

(** A store on which only [updateOne] succeeds: inserts and index
    creations are rejected. *)
Definition sideEffectsFail (reply : value) : Store.t :=
  {| connect := fun _ => Fulfilled (VObj []);
     exec := fun c =>
       match c with
       | Command _ "updateOne" _ => Fulfilled reply
       | _ => Rejected (StoreError true (VStr "E11000"))
       end |}.

Definition oid24 : string := "0123456789abcdef01234567".

Definition ann : value := VObj [("name", VStr "ann")].

Definition aged : value := VObj [("age", VNum 3)].

(** A query carrying an identifier, and the predicate on the parsed
    identifier. *)
Definition byId : value :=
  VObj [("_id", VStr oid24); ("name", VStr "ann")].

Definition parsedId : value :=
  VObj [("_id", VObj [("$oid", VStr oid24)])].

(** Find-and-modify envelopes: a document was found; none was. *)
Definition found : value :=
  VObj [("value", VObj [("name", VStr "ann")]); ("ok", VNum 1)].

Definition notFound : value := VObj [("value", VNull); ("ok", VNum 1)].

Definition counted : Store.t := replying (VObj [("modifiedCount", VNum 7)]).

Definition upserted : value := VObj [("upsertedId", VStr oid24)].

(** Three location samples, two of them of user 1, as they come out of
    a sort stage that the sample server runs as the identity. *)
Definition sample (userId distance : Z) : value :=
  VObj [("userId", VNum userId); ("distance", VNum distance)].

Definition samples (coll : string) : list value :=
  [sample 1 5; sample 1 3; sample 2 4].

Definition passThrough (stage : value) (docs : list value) : list value :=
  docs.

Definition here : value :=
  VObj [("geometry",
         VObj [("type", VStr "Point");
               ("coordinates", VArr [VNum 106; VNum 10])]);
        ("maxDistance", VNum 1000)].

Definition driving : value := VObj [("activity", VStr "driving")].

End Sample.

(* ================================================================= *)
(** ** Definitions used to state further properties *)

Module Shapes.

Import BaseAdapter.

(** The keys of a list, each once, in the order of first occurrence,
    leaving out those already [seen]. *)
Fixpoint firstOccurrencesFrom (seen : list string) (l : list string)
  : list string :=
  match l with
  | [] => []
  | x :: l' =>
      if existsb (String.eqb x) seen then firstOccurrencesFrom seen l'
      else x :: firstOccurrencesFrom (x :: seen) l'
  end.

Definition firstOccurrences (l : list string) : list string :=
  firstOccurrencesFrom [] l.

(** The field names a sequence of tokens leaves in the map: all but
    "__proto__". *)
Definition storedFields (tokens : list string) : list string :=
  filter (fun f => negb (f =? "__proto__")%string)
         (map Props.tokenField tokens).

(** The keys of an object after [obj[k] = x]. *)
Definition addKey (k : string) (ks : list string) : list string :=
  if existsb (String.eqb k) ks then ks else (ks ++ [k])%list.

(** A name made of decimal digits only: the names the engine may list
    ahead of the others whatever the order of insertion. *)
Definition isDigit (c : ascii) : bool :=
  let n := nat_of_ascii c in ((48 <=? n) && (n <=? 57))%nat.

Fixpoint allDigits (s : string) : bool :=
  match s with
  | EmptyString => true
  | String c s' => isDigit c && allDigits s'
  end.

Definition digitsOnly (s : string) : bool :=
  match s with
  | EmptyString => false
  | _ => allDigits s
  end.

Definition isString (v : value) : bool :=
  match v with
  | VStr _ => true
  | _ => false
  end.

Definition isDirection (v : value) : Prop := v = VNum 1 \/ v = VNum (-1).

(** A sort specification as [buildOrder] leaves it. *)
Definition isSortSpec (v : value) : Prop :=
  v = VNull \/ v = VUndefined \/ exists m, v = VObj m.

(** The calls of the adapter that go through [query]. *)
Definition updateCall (R : Runtime) (A : Adapter) (st : Store.t)
  (r : result run) : Prop :=
  (exists model params, r = updateOne R A st model params) \/
  (exists form query_, r = updateOneSimple R A st form query_) \/
  (exists model params, r = updateMany R A st model params) \/
  (exists form query_, r = updateManySimple R A st form query_) \/
  (exists model, r = updateAll R A st model) \/
  (exists params, r = updateAllSimple R A st params).

Definition deleteCall (R : Runtime) (A : Adapter) (st : Store.t)
  (r : result run) : Prop :=
  (exists form, r = deleteOne R A st form) \/
  (exists form, r = deleteOneSimple R A st form) \/
  (exists form, r = deleteMany R A st form) \/
  (exists form, r = deleteManySimple R A st form) \/
  r = deleteAll R A st.

Definition queryCall (R : Runtime) (A : Adapter) (st : Store.t)
  (r : result run) : Prop :=
  updateCall R A st r \/ deleteCall R A st r \/
  (exists model, r = insertOne R A st model) \/
  (exists model, r = upsertOne R A st model) \/
  (exists form opts, r = getOne R A st form opts) \/
  (exists form, r = getOneSimple R A st form) \/
  (exists form query_ opts, r = getOneAndUpdate R A st form query_ opts) \/
  (exists form query_ opts, r = getOneAndUpsert R A st form query_ opts).

(** The promise of a call is the promise of one [query] with one
    callback on it. *)
Definition viaQuery (R : Runtime) (A : Adapter) (st : Store.t)
  (k : value -> result value) (x : run) : Prop :=
  exists funcName args q,
    query R A st funcName args = Return q /\ x = then_ q k.

(** The connection is there. *)
Definition connected (st : Store.t) (A : Adapter) : Prop :=
  exists db, connect st (configKey A) = Fulfilled db.

End Shapes.

(* ================================================================= *)
(** ** BaseAdapter.getMany (base/adapter.js)

    A cursor is opened by [collection.find(filter)], takes modifiers and
    is read by [toArray()]; only the read goes to the server. *)

Module Cursor.

Inductive modifier : Type :=
| Sort (spec : value)
| Skip (n : value)
| Limit (n : value).

Record read : Type := {
  coll : string;
  filter : value;
  modifiers : list modifier
}.

(** The server's answer to [toArray()] on a cursor. *)
Definition server : Type := read -> settled.

Record run : Type := {
  reads : list read;
  final : settled
}.

Definition hung : run := {| reads := []; final := Pending |}.

End Cursor.

Module BaseAdapterReads.

Import BaseAdapter.

Section Operations.

Variable R : Runtime.
Variable A : Adapter.
Variable st : Store.t.
Variable toArray : Cursor.server.

Local Abbreviation S := (modelClass A).

(** [if (x) { cursor = cursor.m(x); }] *)
Definition whenTruthy (m : value -> Cursor.modifier) (x : value)
  : list Cursor.modifier :=
  if truthy x then [m x] else [].

(** [getMany(form, opts)]: everything happens inside
    [new BPromise(...)] after [connect], so a failure before the read
    leaves the promise pending. *)
Definition getMany (form opts : value) : Cursor.run :=
  let opts := or_else opts (VObj []) in
  let model := construct S VUndefined in
  match connect st (configKey A) with
  | Fulfilled _ =>
      let params := queryObject R A model form in
      match (_ <- assert (negb (isEmpty R params))
                    "Params must not be empty" ;;
             '(sortOptions, opts) <- MongoHelpers.buildSortOptions S opts ;;
             skip <- prop opts "skip" ;;
             limit <- prop opts "limit" ;;
             Return (whenTruthy Cursor.Sort sortOptions
                     ++ whenTruthy Cursor.Skip skip
                     ++ whenTruthy Cursor.Limit limit)%list) with
      | Return modifiers =>
          let rd := {| Cursor.coll := collectionName S;
                       Cursor.filter := params;
                       Cursor.modifiers := modifiers |} in
          {| Cursor.reads := [rd];
             Cursor.final :=
               caught (isDebug R)
                 (settle_then (toArray rd) (fun docs =>
                    _ <- prop docs "length" ;; Return docs)) |}
      | Throw _ => Cursor.hung
      end
  | _ => Cursor.hung
  end.

Definition getAllCondition (form opts : value) : Cursor.run :=
  getMany form opts.

End Operations.

End BaseAdapterReads.

(* ================================================================= *)
(** ** The connection pool (base/pool.js)

    [dbs] is the array the pool keeps its handles in, used as a map from
    configuration names to handles.  (The name "length", which an array
    keeps for itself, is outside the model; [Hoek.clone] gives a value
    equal to the one it copies.) *)

Module Pool.

(** What the pool imports: [config.get], [MongoClient.connect],
    [Hoek.applyToDefaults], [MongoLogger.setLevel], the promise library
    it hands to the client, the configured [isDebug], and what an array
    answers for a name it has no property of its own for. *)
Record Env : Type := {
  configGet : string -> result value;
  clientConnect : value -> value -> settled;
  applyToDefaults : value -> value -> result value;
  setLevel : value -> result unit;
  BPromise : value;
  inherited : string -> value;
  isDebug : bool
}.

Record outcome : Type := {
  handle : settled;
  dbs : list (string * value);
  dialled : list (value * value)
}.

Definition defaultServerCfg : value :=
  VObj [("socketOptions",
         VObj [("connectTimeoutMS", VNum 30000);
               ("socketTimeoutMS", VNum 30000)])].

Section Connect.

Variable E : Env.

(** [self.dbs[name]] *)
Definition cached (dbs : list (string * value)) (name : string) : value :=
  match lookup name dbs with
  | Some db => db
  | None => inherited E name
  end.

(** [name || 'default'], for a name that is a string or is not given. *)
Definition effectiveName (name : option string) : string :=
  match name with
  | Some s => if (s =? "")%string then "default" else s
  | None => "default"
  end.

(** The options handed to [MongoClient.connect]. *)
Definition connectOptions (mongoCfg : value) : result value :=
  options <- prop mongoCfg "options" ;;
  let opts := if negb (truthy options) then VObj [] else options in
  opts <- setProp opts "promiseLibrary" (BPromise E) ;;
  server <- prop opts "server" ;;
  if truthy server then setProp opts "server" defaultServerCfg
  else
    merged <- applyToDefaults E defaultServerCfg server ;;
    setProp opts "server" merged.

(** The callback run on the handle the client gives, up to the
    assignment to [self.dbs[name]]. *)
Definition onConnected (mongoCfg : value) : result unit :=
  log <- prop mongoCfg "log" ;;
  level <- (if truthy log then prop log "level" else Return (VBool false)) ;;
  if truthy level then setLevel E level else Return tt.

Definition connect (dbs : list (string * value)) (name : option string)
  : outcome :=
  let name := effectiveName name in
  if truthy (cached dbs name) then
    {| handle := Fulfilled (cached dbs name); dbs := dbs; dialled := [] |}
  else
    match (mongoCfg <- configGet E ("db.mongodb." ++ name) ;;
           url <- prop mongoCfg "connection" ;;
           opts <- connectOptions mongoCfg ;;
           Return (mongoCfg, url, opts)) with
    | Throw e => {| handle := Rejected e; dbs := dbs; dialled := [] |}
    | Return (mongoCfg, url, opts) =>
        match clientConnect E url opts with
        | Fulfilled db =>
            match onConnected mongoCfg with
            | Return _ =>
                {| handle := Fulfilled db;
                   dbs := assign name db dbs;
                   dialled := [(url, opts)] |}
            | Throw e =>
                {| handle := caught (isDebug E) (Rejected e);
                   dbs := dbs;
                   dialled := [(url, opts)] |}
            end
        | other =>
            {| handle := caught (isDebug E) other;
               dbs := dbs;
               dialled := [(url, opts)] |}
        end
    end.

End Connect.

End Pool.

(* ================================================================= *)
(** ** BaseService (base/service.js) and UserActivityService
    (services/user-activity.js)

    A service method hands the adapter's promise to one of the
    [response...] functions, which end by calling the [result] callback
    once, or not at all.  A call is modelled for options that are data
    (the form of [getOne] that takes the callback in their place is not
    modelled). *)

Module BaseService.

Import BaseAdapter.

(** What [exception.create] is given: an error, or
    [helpers.Error.notFound()]. *)
Inductive cause : Type :=
| Failure (e : error)
| NotFound.

(** What becomes of the callback: called with [(err, data)]; never
    called because the error was thrown again and nobody caught it;
    never called because the promise never settled. *)
Inductive reply : Type :=
| Replied (err data : value)
| Unhandled (e : error)
| Waiting.

(** What the service imports: the exception helper, the
    [toThriftObject] of the model class, whether a value is a model
    instance (has [toThriftObject]), and the configured [isDebug]. *)
Record Env : Type := {
  create : cause -> value -> value;
  toThriftObject : instance -> value;
  isModel : value -> bool;
  isDebug : bool
}.

Section Responses.

Variable E : Env.
Variable S : Schema.

Definition responseError (err : error) : reply :=
  Replied (create E (Failure err)
             (VObj [("type", VStr "mongo");
                    ("table", VStr (collectionName S))]))
          VUndefined.

Definition catchException (err : error) : reply :=
  if isDebug E then Unhandled err else responseError err.

(** [result(exception.create(helpers.Error.notFound(), {table}))] *)
Definition notFoundReply : reply :=
  Replied (create E NotFound (VObj [("table", VStr (collectionName S))]))
          VUndefined.

(** [prom.then(onData).catch(MongoError, responseError)
             .catch(catchException)] *)
Definition respond (prom : settled) (onData : value -> result reply)
  : reply :=
  let onError e :=
    if isMongoError e then responseError e else catchException e in
  match prom with
  | Fulfilled data =>
      match onData data with
      | Return r => r
      | Throw e => onError e
      end
  | Rejected e => onError e
  | Pending => Waiting
  end.

Definition responseDefault (prom : settled) : reply :=
  respond prom (fun data => Return (Replied VNull data)).

Definition responseOne (prom : settled) : reply :=
  respond prom (fun data =>
    _ <- prop data "toThriftObject" ;;
    let resultModel :=
      if isModel E data
      then match data with VObj m => m | _ => [] end
      else construct S data in
    Return (Replied VNull (toThriftObject E resultModel))).

Definition responseGetOne (prom : settled) : reply :=
  respond prom (fun data =>
    if negb (truthy data) then Return notFoundReply
    else
      Return (Replied VNull (toThriftObject E (construct S data)))).

Definition responseMany (prom : settled) : reply :=
  respond prom (fun data =>
    if negb (truthy data) then Return (Replied VNull (VArr []))
    else match data with
         | VArr elements =>
             Return (Replied VNull
                       (VArr (map (fun element =>
                                     toThriftObject E (construct S element))
                                  elements)))
         | _ => Throw (TypeError "data.forEach is not a function")
         end).

End Responses.

Section Methods.

Variable E : Env.
Variable R : Runtime.
Variable A : Adapter.
Variable st : Store.t.

Local Abbreviation S := (modelClass A).

(** [return this.response...(this.adapter.op(...), result)]: what the
    adapter throws is thrown by the method. *)
Definition through (response : settled -> reply) (call : result run)
  : result reply :=
  r <- call ;; Return (response (state r)).

Definition insertOne (form : value) : result reply :=
  through (responseOne E S) (BaseAdapter.insertOne R A st form).

Definition updateOne (form params : value) : result reply :=
  through (responseDefault E S) (BaseAdapter.updateOne R A st form params).

Definition updateOneSimple (form params : value) : result reply :=
  through (responseDefault E S)
    (BaseAdapter.updateOneSimple R A st form params).

Definition updateMany (form params : value) : result reply :=
  through (responseDefault E S) (BaseAdapter.updateMany R A st form params).

Definition updateManySimple (form params : value) : result reply :=
  through (responseDefault E S)
    (BaseAdapter.updateManySimple R A st form params).

Definition updateAll (form : value) : result reply :=
  through (responseDefault E S) (BaseAdapter.updateAll R A st form).

Definition updateAllSimple (form : value) : result reply :=
  through (responseDefault E S) (BaseAdapter.updateAllSimple R A st form).

Definition upsertOne (form : value) : result reply :=
  through (responseOne E S) (BaseAdapter.upsertOne R A st form).

Definition getOne (form opts : value) : result reply :=
  let opts := or_else opts (VObj []) in
  through (responseGetOne E S) (BaseAdapter.getOne R A st form opts).

Definition getOneSimple (form opts : value) : result reply :=
  through (responseGetOne E S) (BaseAdapter.getOneSimple R A st form).

Definition getOneAndUpdate (form params opts : value) : result reply :=
  through (responseGetOne E S)
    (BaseAdapter.getOneAndUpdate R A st form params opts).

Definition getOneAndUpsert (form query_ opts : value) : result reply :=
  through (responseGetOne E S)
    (BaseAdapter.getOneAndUpsert R A st form query_ opts).

Definition getMany (toArray : Cursor.server) (form opts : value) : reply :=
  let opts := or_else opts (VObj []) in
  responseMany E S
    (Cursor.final (BaseAdapterReads.getMany R A st toArray form opts)).

Definition getAllCondition (toArray : Cursor.server) (form opts : value)
  : reply :=
  getMany toArray form opts.

Definition exists_ (form : value) : reply :=
  responseDefault E S (state (BaseAdapter.exists_ R A st form)).

Definition deleteOne (form : value) : result reply :=
  through (responseDefault E S) (BaseAdapter.deleteOne R A st form).

Definition deleteOneSimple (form : value) : result reply :=
  through (responseDefault E S) (BaseAdapter.deleteOneSimple R A st form).

Definition deleteMany (form : value) : result reply :=
  through (responseDefault E S) (BaseAdapter.deleteMany R A st form).

Definition deleteManySimple (form : value) : result reply :=
  through (responseDefault E S) (BaseAdapter.deleteManySimple R A st form).

Definition deleteAll : result reply :=
  through (responseDefault E S) (BaseAdapter.deleteAll R A st).

End Methods.

End BaseService.

Module UserActivityService.

Import BaseService.

Section Methods.

Variable E : Env.
Variable U : UserActivityAdapter.Adapter.
Variable st : Store.t.

Local Abbreviation S := (BaseAdapter.modelClass (UserActivityAdapter.base U)).

Definition findManyAround (params actParams : value) : reply :=
  responseMany E S
    (state (UserActivityAdapter.findManyAround U st params actParams)).

Definition findOneAround (params actParams : value) : reply :=
  responseOne E S
    (state (UserActivityAdapter.findOneAround U st params actParams)).

End Methods.

End UserActivityService.

(* ================================================================= *)
(** ** More sample data *)

Module Sample2.

(** A configuration with a custom server section for "default" and
    none for "reports"; any other name is missing. *)
Definition customServer : value :=
  VObj [("socketOptions", VObj [("connectTimeoutMS", VNum 500)])].

Definition configGet (key : string) : result value :=
  if (key =? "db.mongodb.default")%string then
    Return (VObj [("connection", VStr "mongodb://localhost/app");
                  ("options", VObj [("server", customServer)])])
  else if (key =? "db.mongodb.reports")%string then
    Return (VObj [("connection", VStr "mongodb://localhost/reports")])
  else Throw (TypeError "Configuration property is undefined").

(** A client that reaches the first database only. *)
Definition clientConnect (url opts : value) : settled :=
  match url with
  | VStr "mongodb://localhost/app" => Fulfilled (VObj [("db", url)])
  | _ => Rejected (StoreError true (VStr "ECONNREFUSED"))
  end.

Definition poolEnv : Pool.Env :=
  {| Pool.configGet := configGet;
     Pool.clientConnect := clientConnect;
     Pool.applyToDefaults := fun defaults options =>
       if truthy options then Return options else Return VNull;
     Pool.setLevel := fun _ => Return tt;
     Pool.BPromise := VStr "bluebird";
     Pool.inherited := fun _ => VUndefined;
     Pool.isDebug := false |}.

(** A service environment: exceptions are tagged records, the thrift
    form of a model is the object of its fields. *)
Definition serviceEnv (debug : bool) : BaseService.Env :=
  {| BaseService.create := fun c ctx =>
       match c with
       | BaseService.NotFound => VObj [("code", VStr "404"); ("ctx", ctx)]
       | BaseService.Failure _ => VObj [("code", VStr "500"); ("ctx", ctx)]
       end;
     BaseService.toThriftObject := VObj;
     BaseService.isModel := fun _ => false;
     BaseService.isDebug := debug |}.

(** A server answering every cursor with two documents. *)
Definition twoDocs : Cursor.server :=
  fun _ => Fulfilled (VArr [Sample.ann; Sample.aged]).

End Sample2.

(* ================================================================= *)
(** * Properties *)

(** ** Property lists and strings *)

Section ObjectFacts.

Lemma lookup_assign (k k' : string) (x : value) ps :
  lookup k (assign k' x ps)
  = if (k =? k')%string then Some x else lookup k ps.
Proof.
  induction ps as [|[k0 y] ps IH]; simpl.
  - destruct (String.eqb_spec k k'); reflexivity.
  - destruct (String.eqb_spec k' k0) as [->|Hne]; simpl.
    + destruct (String.eqb_spec k k0); reflexivity.
    + rewrite IH.
      destruct (String.eqb_spec k k0) as [->|]; [|reflexivity].
      destruct (String.eqb_spec k0 k'); [congruence | reflexivity].
Qed.

Lemma lookup_remove (k k' : string) ps :
  lookup k (Js.remove k' ps)
  = if (k =? k')%string then None else lookup k ps.
Proof.
  induction ps as [|[k0 y] ps IH]; simpl.
  - destruct (k =? k')%string; reflexivity.
  - destruct (String.eqb_spec k' k0) as [->|Hne]; simpl.
    + rewrite IH. destruct (String.eqb_spec k k0); reflexivity.
    + rewrite IH.
      destruct (String.eqb_spec k k0) as [->|]; [|reflexivity].
      destruct (String.eqb_spec k0 k'); [congruence | reflexivity].
Qed.

Lemma substring_whole (s : string) : substring 0 (String.length s) s = s.
Proof. induction s; simpl; congruence. Qed.

Lemma substr_first (c : ascii) (s : string) :
  substr (String c s) 0 1 = String c EmptyString.
Proof. unfold substr; simpl. destruct s; reflexivity. Qed.

Lemma substrFrom_rest (c : ascii) (s : string) :
  substrFrom (String c s) 1 = s.
Proof.
  unfold substrFrom; simpl. rewrite Nat.sub_0_r. apply substring_whole.
Qed.

Lemma split_noComma (s : string) :
  Props.noComma s = true -> split "," s = [s].
Proof.
  induction s as [|c s IH]; simpl; [reflexivity|].
  intros H. apply andb_true_iff in H as [Hc Hs].
  apply negb_true_iff in Hc. rewrite Hc, (IH Hs). reflexivity.
Qed.

Lemma split_append (x y : string) :
  Props.noComma x = true ->
  split "," (x ++ String "," y) = x :: split "," y.
Proof.
  induction x as [|c x IH]; simpl; [reflexivity|].
  intros H. apply andb_true_iff in H as [Hc Hx].
  apply negb_true_iff in Hc. rewrite Hc, (IH Hx). reflexivity.
Qed.

Lemma split_join (tokens : list string) :
  Forall (fun t => Props.noComma t = true) tokens ->
  tokens <> [] ->
  split "," (join "," tokens) = tokens.
Proof.
  induction 1 as [|t ts Ht Hts IH]; [congruence|]. intros _.
  destruct ts as [|t' ts].
  - simpl. apply split_noComma, Ht.
  - change (join "," (t :: t' :: ts))
      with (t ++ String "," (join "," (t' :: ts)))%string.
    rewrite split_append by exact Ht.
    rewrite IH by discriminate. reflexivity.
Qed.

End ObjectFacts.

(** ** OrderBuilder *)

Section OrderBuilder.

Import MongoHelpers Props.

Lemma buildArrayStep_token m t :
  buildArrayStep (Return m) (VStr t) = Return (tokenStep m t).
Proof.
  unfold buildArrayStep, tokenStep, tokenField, tokenDirection, descending.
  simpl. destruct (trim t) as [|c rest]; [reflexivity|].
  rewrite substr_first, substrFrom_rest. simpl.
  destruct (Ascii.eqb_spec c "-") as [->|Hne]; [reflexivity|].
  destruct c as [[] [] [] [] [] [] [] []]; try reflexivity; congruence.
Qed.

Lemma fold_buildArrayStep tokens m :
  fold_left buildArrayStep (map VStr tokens) (Return m)
  = Return (fold_left tokenStep tokens m).
Proof.
  revert m.
  induction tokens as [|t ts IH]; intros m; cbn [fold_left map];
    [reflexivity|].
  rewrite buildArrayStep_token. apply IH.
Qed.

Lemma lookup_fold_tokenStep field tokens m :
  lookup field (fold_left tokenStep tokens m)
  = if (field =? "__proto__")%string then lookup field m
    else match direction field tokens with
         | Some d => Some (VNum d)
         | None => lookup field m
         end.
Proof.
  revert m. induction tokens as [|t ts IH]; intros m; simpl.
  - destruct (field =? "__proto__")%string; reflexivity.
  - rewrite IH. unfold tokenStep, assignPrimitive.
    destruct (String.eqb_spec field "__proto__") as [->|Hf].
    + destruct (String.eqb_spec (tokenField t) "__proto__") as [E|E];
        [reflexivity|].
      rewrite lookup_assign.
      destruct (String.eqb_spec "__proto__" (tokenField t));
        [congruence | reflexivity].
    + destruct (direction field ts); [reflexivity|].
      destruct (String.eqb_spec (tokenField t) "__proto__") as [E|E].
      * destruct (String.eqb_spec field (tokenField t)); [congruence|].
        reflexivity.
      * rewrite lookup_assign.
        destruct (field =? tokenField t)%string; reflexivity.
Qed.

Lemma buildArrayFunc_tokens tokens :
  buildArrayFunc (map VStr tokens)
  = Return (VObj (fold_left tokenStep tokens [])).
Proof. unfold buildArrayFunc. rewrite fold_buildArrayStep. reflexivity. Qed.

Lemma buildOrder_joined tokens :
  Forall (fun t => noComma t = true) tokens ->
  join "," tokens <> "" ->
  buildOrder (VStr (join "," tokens)) = buildArrayFunc (map VStr tokens).
Proof.
  intros Hc Hne. unfold buildOrder. simpl.
  destruct (String.eqb_spec (join "," tokens) ""); [contradiction|]. simpl.
  rewrite split_join; [reflexivity | exact Hc |].
  intros ->. apply Hne. reflexivity.
Qed.

(** C5, as the code has it: [null] and [undefined] give [null]; a map is
    returned as it is; an array of tokens gives each field the direction
    of the last token naming it (trimmed, '-' stripped: -1, otherwise
    +1), except that the name "__proto__" is never stored; and the
    comma-joined string of the tokens gives the same map provided no
    token holds a comma and the joined string is not empty.  In
    particular ["name", "-age"] and "name,-age" both give
    {name: 1, age: -1}. *)
Theorem buildOrder_tokens :
  buildOrder VNull = Return VNull /\
  buildOrder VUndefined = Return VNull /\
  (forall ps, buildOrder (VObj ps) = Return (VObj ps)) /\
  (forall tokens, exists m,
      buildOrder (VArr (map VStr tokens)) = Return (VObj m) /\
      (forall field,
          lookup field m
          = if (field =? "__proto__")%string then None
            else option_map VNum (direction field tokens)) /\
      (Forall (fun t => noComma t = true) tokens ->
       join "," tokens <> "" ->
       buildOrder (VStr (join "," tokens)) = Return (VObj m))) /\
  buildOrder (VArr [VStr "name"; VStr "-age"])
  = Return (VObj [("name", VNum 1); ("age", VNum (-1))]) /\
  buildOrder (VStr "name,-age")
  = Return (VObj [("name", VNum 1); ("age", VNum (-1))]).
Proof.
  repeat split; try reflexivity.
  intros tokens. exists (fold_left tokenStep tokens []).
  split; [|split].
  - unfold buildOrder; simpl. apply buildArrayFunc_tokens.
  - intros field. rewrite lookup_fold_tokenStep.
    destruct (field =? "__proto__")%string; [reflexivity|].
    destruct (direction field tokens); reflexivity.
  - intros Hc Hne. rewrite buildOrder_joined by assumption.
    apply buildArrayFunc_tokens.
Qed.

Lemma buildOrder_tokens_witness :
  exists m,
    buildOrder (VArr (map VStr [" name"; "-age "; "-name"])) = Return (VObj m) /\
    lookup "name" m = Some (VNum (-1)) /\
    buildOrder (VStr " name,-age ,-name") = Return (VObj m).
Proof.
  destruct buildOrder_tokens as (_ & _ & _ & H & _).
  destruct (H [" name"; "-age "; "-name"]) as (m & Ha & Hl & Hs).
  exists m. split; [exact Ha|]. split.
  - rewrite Hl. reflexivity.
  - apply Hs.
    + repeat constructor.
    + discriminate.
Defined.

(** C5 as stated fails on the empty sequence: the array gives the empty
    map, its comma-joined string (the empty string) gives [null]. *)
Lemma buildOrder_empty_sequence :
  buildOrder (VArr (map VStr [])) = Return (VObj []) /\
  buildOrder (VStr (join "," [])) = Return VNull /\
  buildOrder (VArr (map VStr [])) <> buildOrder (VStr (join "," [])).
Proof. repeat split; simpl; discriminate. Qed.

(** A token naming "__proto__" leaves nothing in the map. *)
Example buildOrder_proto_token :
  buildOrder (VArr [VStr "__proto__"; VStr "-age"])
  = Return (VObj [("age", VNum (-1))]) /\
  buildOrder (VStr "-__proto__") = Return (VObj []).
Proof. split; reflexivity. Qed.

(** A token holding a comma is one field in the array and two in the
    string. *)
Lemma buildOrder_comma_token :
  buildOrder (VArr (map VStr ["a,b"])) = Return (VObj [("a,b", VNum 1)]) /\
  buildOrder (VStr (join "," ["a,b"]))
  = Return (VObj [("a", VNum 1); ("b", VNum 1)]).
Proof. split; reflexivity. Qed.

End OrderBuilder.

(** ** Sort options *)

Section SortOptions.

Import MongoHelpers Props.

Lemma prop_get (v : value) (k : string) :
  truthy v = true -> prop v k = Return (get v k).
Proof. destruct v; simpl; intros H; try discriminate; reflexivity. Qed.

Lemma truthy_or_else (v : value) : truthy (or_else v (VObj [])) = true.
Proof. unfold or_else. destruct (truthy v) eqn:E; [exact E | reflexivity]. Qed.

Lemma get_delProp (v : value) (k k' : string) :
  get (delProp v k') k
  = if (k =? k')%string then VUndefined else get v k.
Proof.
  destruct v; simpl; try (destruct (k =? k')%string; reflexivity).
  unfold get; simpl. rewrite lookup_remove.
  destruct (k =? k')%string; reflexivity.
Qed.



(** The three lower ranks at work. *)
Example buildSortOptions_sort_option :
  buildSortOptions Sample.userSchema (VObj [("sort", VStr "-age")])
  = Return (VObj [("age", VNum (-1))], VObj [("sort", VStr "-age")]).
Proof. reflexivity. Qed.

Example buildSortOptions_default :
  buildSortOptions Sample.userSchema VUndefined
  = Return (VObj [("name", VNum 1)], VObj []).
Proof. reflexivity. Qed.

Example buildSortOptions_none :
  buildSortOptions Sample.logSchema (VObj [("limit", VNum 5)])
  = Return (VNull, VObj [("limit", VNum 5)]).
Proof. reflexivity. Qed.

End SortOptions.

(** ** DocumentAdapter *)

Arguments BaseAdapter.query : simpl never.

Section DocumentAdapter.

Import BaseAdapter Props.

Variable R : Runtime.
Variable A : Adapter.
Variable st : Store.t.

Local Abbreviation S := (modelClass A).

Lemma query_connected (funcName : string) (args : list value) (db : value) :
  truthy (VStr funcName) = true ->
  connect st (configKey A) = Fulfilled db ->
  query R A st funcName args
  = Return {| issued := [Command (collectionName S) funcName args];
              state := caught (isDebug R)
                         (exec st (Command (collectionName S) funcName args));
              background := [] |}.
Proof. intros Hf Hc. unfold query. rewrite Hf, Hc. reflexivity. Qed.

Lemma query_issues (funcName : string) (args : list value) (q : run) :
  query R A st funcName args = Return q ->
  issued q = [] \/ issued q = [Command (collectionName S) funcName args].
Proof.
  unfold query. destruct (assert _ _); cbn; [|discriminate].
  intros [= <-]. destruct (connect st (configKey A)); simpl; auto.
Qed.

Ltac case_query q H :=
  match goal with
  | |- context [query ?R ?A ?st ?f ?a] =>
      destruct (query R A st f a) as [q|] eqn:H; cbn; [|discriminate]
  end.

Ltac pass_guard :=
  match goal with
  | |- context [assert ?c ?m] =>
      destruct (assert c m); cbn; [|discriminate]
  end.

Lemma assert_negb_isEmpty (v : value) (msg : string) :
  isEmpty R v = false -> assert (negb (isEmpty R v)) msg = Return tt.
Proof. intros ->. reflexivity. Qed.

(** C3: the predicate [upsertOne] sends is the [$setOnInsert] member of
    the very document it sends: whatever command it issues is
    [updateOne(doc.$setOnInsert, doc, {upsert: true})] for the upsert
    projection [doc] of the model, and it does issue it once the guards
    pass and the connection is there. *)
Theorem upsertOne_predicate_is_setOnInsert (model : value) :
  let doc := toUpsertObject S (runBeforeSave S true (construct S model)) in
  (forall r c,
      upsertOne R A st model = Return r -> In c (issued r) ->
      exists q, prop doc "$setOnInsert" = Return q /\
                c = Command (collectionName S) "updateOne"
                      [q; doc; VObj [("upsert", VBool true)]]) /\
  (forall q db,
      prop doc "$setOnInsert" = Return q ->
      isEmpty R q = false -> isEmpty R doc = false ->
      connect st (configKey A) = Fulfilled db ->
      exists r, upsertOne R A st model = Return r /\
                issued r = [Command (collectionName S) "updateOne"
                              [q; doc; VObj [("upsert", VBool true)]]]).
Proof.
  intros doc. unfold upsertOne. fold doc. split.
  - intros r c. destruct (prop doc "$setOnInsert") as [q|] eqn:Hq;
      cbn; [|discriminate].
    destruct (assert (negb (isEmpty R q)) _); cbn; [|discriminate].
    destruct (assert (negb (isEmpty R doc)) _); cbn; [|discriminate].
    case_query qr Hqr.
    intros [= <-]. cbn. intros Hin. exists q. split; [reflexivity|].
    destruct (query_issues _ _ _ Hqr) as [E|E]; rewrite E in Hin.
    + destruct Hin.
    + destruct Hin as [<-|[]]. reflexivity.
  - intros q db Hq Hne1 Hne2 Hc. rewrite Hq. cbn.
    rewrite !assert_negb_isEmpty by assumption. cbn.
    rewrite (query_connected _ _ db) by (reflexivity || assumption). cbn.
    eexists. split; reflexivity.
Qed.

Lemma unwrapEnvelope_get (envelope ok : value) :
  prop envelope "ok" = Return ok ->
  unwrapEnvelope envelope
  = Return (if truthy ok then get envelope "value" else VNull).
Proof.
  intros H. unfold unwrapEnvelope. rewrite H. simpl.
  destruct (truthy ok); simpl; [|reflexivity].
  unfold get. destruct envelope; simpl in *; try discriminate; reflexivity.
Qed.

(** C4, as the code has it: when the store fulfils the find-and-modify
    command with an envelope, [getOneAndUpdate] and [getOneAndUpsert]
    resolve to [null] if the envelope's [ok] is falsy, and to the
    envelope's [value] otherwise, which is itself [null] when no document
    matched. *)
Theorem findAndModify_unwraps_envelope
    (form query_ opts : value) (r : run) (c : Store.call)
    (envelope ok : value) :
  getOneAndUpdate R A st form query_ opts = Return r \/
  getOneAndUpsert R A st form query_ opts = Return r ->
  issued r = [c] ->
  exec st c = Fulfilled envelope ->
  prop envelope "ok" = Return ok ->
  state r = Fulfilled (if truthy ok then get envelope "value" else VNull).
Proof.
  intros Hop Hi He Hok.
  assert (Hq : exists f args q,
             query R A st f args = Return q /\ r = then_ q unwrapEnvelope).
  { destruct Hop as [H|H]; revert H.
    - unfold getOneAndUpdate.
      destruct (assert _ _); cbn; [|discriminate].
      destruct (assert _ _); cbn; [|discriminate].
      case_query q Hq.
      intros [= <-]. eauto.
    - unfold getOneAndUpsert.
      destruct (setProp opts "upsert" _); cbn; [|discriminate].
      destruct (assert _ _); cbn; [|discriminate].
      destruct (assert _ _); cbn; [|discriminate].
      case_query q Hq.
      intros [= <-]. eauto. }
  destruct Hq as (f & args & q & Hq & ->). simpl in *.
  revert Hq. unfold query. destruct (assert _ _); cbn; [|discriminate].
  intros [= <-]. destruct (connect st (configKey A)); simpl in *;
    try discriminate.
  injection Hi as <-. rewrite He. simpl.
  rewrite (unwrapEnvelope_get _ _ Hok). reflexivity.
Qed.

(** *** Identity resolution *)

Lemma idOrQueryObject_id (m : instance) (form id oid : value) :
  prop form "_id" = Return id -> truthy id = true ->
  ObjectID R id = Return oid ->
  idOrQueryObject R A m form = Return (VObj [("_id", oid)]).
Proof.
  intros Hp Ht Ho. unfold idOrQueryObject. rewrite Hp. cbn.
  rewrite Ht, Ho. reflexivity.
Qed.

Lemma idOrQueryObject_no_id (m : instance) (form id : value) :
  prop form "_id" = Return id -> truthy id = false ->
  idOrQueryObject R A m form = Return (queryObject R A m form).
Proof.
  intros Hp Ht. unfold idOrQueryObject. rewrite Hp. cbn.
  rewrite Ht. reflexivity.
Qed.

(** What [getOne], [exists] and [deleteOne] send once their predicate is
    resolved to [p]. *)
Lemma resolved_predicate_sent (form p db : value) :
  connect st (configKey A) = Fulfilled db ->
  idOrQueryObject R A (construct S VUndefined) form = Return p ->
  (forall opts opts',
      MongoHelpers.buildFindOptions S opts = Return opts' ->
      exists r, getOne R A st form opts = Return r /\
                issued r = [Command (collectionName S) "findOne" [p; opts']] /\
                state r = caught (isDebug R)
                  (exec st (Command (collectionName S) "findOne" [p; opts']))) /\
  (isEmpty R p = false ->
      issued (exists_ R A st form) = [FindCount (collectionName S) p 1] /\
      exists r, deleteOne R A st form = Return r /\
                issued r = [Command (collectionName S) "deleteOne" [p]]).
Proof.
  intros Hc Hp. split.
  - intros opts opts' Ho. unfold getOne. rewrite Hp. cbn. rewrite Ho. cbn.
    rewrite (query_connected _ _ db) by (reflexivity || assumption). cbn.
    eexists. split; [reflexivity|]. split; [reflexivity|].
    destruct (exec st _) as [v|e|]; cbn; try reflexivity.
    destruct (isMongoError e); [reflexivity|].
    destruct (isDebug R); reflexivity.
  - intros He. split.
    + unfold exists_. rewrite Hc, Hp. cbn.
      rewrite assert_negb_isEmpty by assumption. reflexivity.
    + unfold deleteOne. rewrite Hp. cbn.
      rewrite assert_negb_isEmpty by assumption. cbn.
      rewrite (query_connected _ _ db) by (reflexivity || assumption).
      eexists. split; reflexivity.
Qed.

(** The operations taking a separate query never look for [_id]. *)
Lemma projected_predicate_sent (model params opts : value) (r : run) (db : value) :
  connect st (configKey A) = Fulfilled db ->
  updateOne R A st model params = Return r \/
  updateMany R A st model params = Return r \/
  getOneAndUpdate R A st model params opts = Return r \/
  getOneAndUpsert R A st model params opts = Return r ->
  map filterOf (issued r)
  = [Some (queryObject R A (construct S model) params)].
Proof.
  intros Hc [H|[H|[H|H]]]; revert H;
    [unfold updateOne | unfold updateMany
    | unfold getOneAndUpdate | unfold getOneAndUpsert];
    try (destruct (setProp opts "upsert" _); cbn; [|discriminate]);
    pass_guard; pass_guard;
    rewrite (query_connected _ _ db) by (reflexivity || assumption); cbn;
    intros [= <-]; reflexivity.
Qed.

(** C2, as the code has it: [getOne], [exists] and [deleteOne] send the
    equality predicate on the parsed identifier when the form has an
    [_id], without consulting [toQueryObject], and the schema's query
    projection (or else the generic one) when it has none; [updateOne],
    [updateMany], [getOneAndUpdate], [getOneAndUpsert] and [deleteMany]
    always send the projection of their query argument, whether or not
    it carries [_id]. *)
Theorem identity_resolution (form db : value) :
  connect st (configKey A) = Fulfilled db ->
  let blank := construct S VUndefined in
  (forall id oid,
      prop form "_id" = Return id -> truthy id = true ->
      ObjectID R id = Return oid ->
      let p := VObj [("_id", oid)] in
      (forall opts opts',
          MongoHelpers.buildFindOptions S opts = Return opts' ->
          exists r, getOne R A st form opts = Return r /\
                    map filterOf (issued r) = [Some p]) /\
      (isEmpty R p = false ->
          map filterOf (issued (exists_ R A st form)) = [Some p] /\
          exists r, deleteOne R A st form = Return r /\
                    map filterOf (issued r) = [Some p])) /\
  (forall id,
      prop form "_id" = Return id -> truthy id = false ->
      let p := queryObject R A blank form in
      (forall opts opts',
          MongoHelpers.buildFindOptions S opts = Return opts' ->
          exists r, getOne R A st form opts = Return r /\
                    map filterOf (issued r) = [Some p]) /\
      (isEmpty R p = false ->
          map filterOf (issued (exists_ R A st form)) = [Some p] /\
          exists r, deleteOne R A st form = Return r /\
                    map filterOf (issued r) = [Some p])) /\
  (forall model opts r,
      updateOne R A st model form = Return r \/
      updateMany R A st model form = Return r \/
      getOneAndUpdate R A st model form opts = Return r \/
      getOneAndUpsert R A st model form opts = Return r ->
      map filterOf (issued r)
      = [Some (queryObject R A (construct S model) form)]) /\
  (forall r,
      deleteMany R A st form = Return r ->
      map filterOf (issued r) = [Some (queryObject R A blank form)]).
Proof.
  intros Hc blank.
  assert (Hsent : forall p,
    idOrQueryObject R A blank form = Return p ->
    (forall opts opts',
        MongoHelpers.buildFindOptions S opts = Return opts' ->
        exists r, getOne R A st form opts = Return r /\
                  map filterOf (issued r) = [Some p]) /\
    (isEmpty R p = false ->
        map filterOf (issued (exists_ R A st form)) = [Some p] /\
        exists r, deleteOne R A st form = Return r /\
                  map filterOf (issued r) = [Some p])).
  { intros p Hp.
    destruct (resolved_predicate_sent form p db Hc Hp) as [Hg Hd]. split.
    - intros opts opts' Ho. destruct (Hg opts opts' Ho) as (r & E & Hi & _).
      exists r. rewrite Hi. split; [exact E | reflexivity].
    - intros He. destruct (Hd He) as (Hx & r & E & Hi).
      rewrite Hx. split; [reflexivity|].
      exists r. rewrite Hi. split; [exact E | reflexivity]. }
  split; [|split; [|split]].
  - intros id oid Hp Ht Ho. apply Hsent.
    apply (idOrQueryObject_id _ _ id); assumption.
  - intros id Hp Ht. apply Hsent.
    apply (idOrQueryObject_no_id _ _ id); assumption.
  - intros model opts r H.
    apply (projected_predicate_sent model form opts r db Hc H).
  - intros r. unfold deleteMany. pass_guard.
    rewrite (query_connected _ _ db) by (reflexivity || assumption). cbn.
    intros [= <-]. reflexivity.
Qed.

(** *** Reading one document *)

(** C10, as the code has it: [getOne] has no guard.  For a form
    without identifier whose predicate (the schema's projection, or the
    generic one when the schema has none) resolves to an empty one, it
    sends [findOne] with that empty predicate and resolves with what
    the store finds.  [getOneSimple] guards the generic projection of
    the form: it throws the guard failure, so that nothing is sent,
    when that projection is empty, as it is on every such form when the
    schema has no [toQueryObject]; when it is not empty, [getOneSimple]
    sends [findOne] with it. *)
Theorem getOne_unguarded (form opts opts' id db : value) :
  let params := queryObject R A (construct S VUndefined) form in
  prop form "_id" = Return id -> truthy id = false ->
  isEmpty R params = true ->
  MongoHelpers.buildFindOptions S opts = Return opts' ->
  connect st (configKey A) = Fulfilled db ->
  (exists r,
      getOne R A st form opts = Return r /\
      issued r = [Command (collectionName S) "findOne" [params; opts']] /\
      forall doc,
        exec st (Command (collectionName S) "findOne" [params; opts'])
        = Fulfilled doc ->
        state r = Fulfilled doc) /\
  (isEmpty R (toSimpleObject R form) = true ->
   getOneSimple R A st form
   = Throw (AssertionError "Params must not be empty")) /\
  (toQueryObject S = None ->
   getOneSimple R A st form
   = Throw (AssertionError "Params must not be empty")) /\
  (isEmpty R (toSimpleObject R form) = false ->
   exists r,
     getOneSimple R A st form = Return r /\
     issued r = [Command (collectionName S) "findOne"
                   [toSimpleObject R form]]).
Proof.
  intros params Hp Ht He Ho Hc. split; [|split; [|split]].
  - pose proof (idOrQueryObject_no_id (construct S VUndefined) form id Hp Ht)
      as Hq.
    destruct (resolved_predicate_sent form params db Hc Hq) as [Hg _].
    destruct (Hg opts opts' Ho) as (r & E & Hi & Hs).
    exists r. split; [exact E|]. split; [exact Hi|].
    intros doc Hd. rewrite Hs, Hd. reflexivity.
  - intros Hs. unfold getOneSimple. rewrite Hs. reflexivity.
  - intros Hn. unfold getOneSimple.
    unfold params, queryObject in He. rewrite Hn in He. rewrite He.
    reflexivity.
  - intros Hs. unfold getOneSimple. rewrite Hs. cbn.
    rewrite (query_connected _ _ db) by (reflexivity || assumption).
    eexists. split; reflexivity.
Qed.

End DocumentAdapter.

Lemma findAndModify_unwraps_envelope_witness :
  exists r,
    BaseAdapter.getOneAndUpsert Sample.runtime Sample.users
      (Sample.replying Sample.found) Sample.aged Sample.ann (VObj [])
    = Return r /\
    state r = Fulfilled (VObj [("name", VStr "ann")]).
Proof.
  eexists. split; [vm_compute; reflexivity|].
  refine (findAndModify_unwraps_envelope Sample.runtime Sample.users
            (Sample.replying Sample.found) Sample.aged Sample.ann (VObj [])
            _
            (Command "users" "findOneAndUpdate"
               [Sample.ann;
                VObj [("$setOnInsert", Sample.aged);
                      ("$set", VObj [("age", VNum 3);
                                     ("isNew", VBool false)])];
                VObj [("upsert", VBool true)]])
            Sample.found (VNum 1) _ _ _ _).
  - right. reflexivity.
  - reflexivity.
  - reflexivity.
  - reflexivity.
Defined.

(** C4 as stated fails on the envelope of an update that matched no
    document: [ok] is 1 and the call still resolves to [null], so that
    resolving to [null] is not equivalent to [ok] being false. *)
Lemma getOneAndUpdate_null_while_ok :
  exists r,
    BaseAdapter.getOneAndUpdate Sample.runtime Sample.users
      (Sample.replying Sample.notFound) Sample.aged Sample.ann (VObj [])
    = Return r /\
    state r = Fulfilled VNull /\
    truthy (Props.get Sample.notFound "ok") = true /\
    ~ (state r = Fulfilled VNull <->
       truthy (Props.get Sample.notFound "ok") = false).
Proof.
  eexists. split; [reflexivity|]. simpl.
  repeat split. intros [H _]. specialize (H eq_refl). discriminate.
Qed.

Lemma upsertOne_predicate_is_setOnInsert_witness :
  exists r,
    BaseAdapter.upsertOne Sample.runtime Sample.users
      (Sample.replying (VObj [])) Sample.ann
    = Return r /\
    issued r
    = [Command "users" "updateOne"
         [Sample.ann;
          VObj [("$setOnInsert", Sample.ann);
                ("$set", VObj [("name", VStr "ann"); ("isNew", VBool true)])];
          VObj [("upsert", VBool true)]]].
Proof.
  destruct (upsertOne_predicate_is_setOnInsert Sample.runtime Sample.users
              (Sample.replying (VObj [])) Sample.ann) as [_ H].
  apply (H Sample.ann (VObj [])); reflexivity.
Defined.

Lemma identity_resolution_witness :
  (exists r,
      BaseAdapter.getOne Sample.runtime Sample.users
        (Sample.replying VNull) Sample.byId VUndefined = Return r /\
      map Props.filterOf (issued r) = [Some Sample.parsedId]) /\
  (exists r,
      BaseAdapter.deleteOne Sample.runtime Sample.users
        (Sample.replying VNull) Sample.byId = Return r /\
      map Props.filterOf (issued r) = [Some Sample.parsedId]).
Proof.
  destruct (identity_resolution Sample.runtime Sample.users
              (Sample.replying VNull) Sample.byId (VObj []) eq_refl)
    as [H _].
  destruct (H (VStr Sample.oid24) (VObj [("$oid", VStr Sample.oid24)])
              eq_refl eq_refl eq_refl) as [Hg Hd].
  split.
  - apply (Hg VUndefined (VObj [("sort", VObj [("name", VNum 1)])])).
    reflexivity.
  - apply Hd. reflexivity.
Defined.

(** C2 as stated fails on [updateOne]: the query carries an [_id], and
    the predicate sent is the schema's projection of it (here its
    [name]) or, for a schema without [toQueryObject], the generic copy
    with the identifier left unparsed. *)
Lemma updateOne_ignores_identifier :
  truthy (Props.get Sample.byId "_id") = true /\
  (_id <- prop Sample.byId "_id" ;;
   oid <- BaseAdapter.ObjectID Sample.runtime _id ;;
   Return (VObj [("_id", oid)]))
  = Return Sample.parsedId /\
  (exists r,
      BaseAdapter.updateOne Sample.runtime Sample.users
        (Sample.replying VNull) Sample.aged Sample.byId = Return r /\
      map Props.filterOf (issued r) = [Some Sample.ann] /\
      map Props.filterOf (issued r) <> [Some Sample.parsedId]) /\
  (exists r,
      BaseAdapter.updateOne Sample.runtime Sample.logs
        (Sample.replying VNull) Sample.aged Sample.byId = Return r /\
      map Props.filterOf (issued r) = [Some Sample.byId] /\
      map Props.filterOf (issued r) <> [Some Sample.parsedId]).
Proof.
  split; [reflexivity|]. split; [reflexivity|].
  split; eexists; (split; [vm_compute; reflexivity|]);
    (split; [reflexivity | discriminate]).
Qed.

Lemma getOne_unguarded_witness :
  (exists r,
      BaseAdapter.getOne Sample.runtime Sample.logs
        (Sample.replying Sample.ann) (VObj [("age", VNull)]) VUndefined
      = Return r /\
      issued r = [Command "user_activity_logs" "findOne"
                    [VObj []; VObj [("sort", VNull)]]] /\
      state r = Fulfilled Sample.ann) /\
  BaseAdapter.getOneSimple Sample.runtime Sample.logs
    (Sample.replying Sample.ann) (VObj [("age", VNull)])
  = Throw (AssertionError "Params must not be empty").
Proof.
  destruct (getOne_unguarded Sample.runtime Sample.logs
              (Sample.replying Sample.ann)
              (VObj [("age", VNull)]) VUndefined (VObj [("sort", VNull)])
              VUndefined (VObj [])
              eq_refl eq_refl eq_refl eq_refl eq_refl) as [(r & E & Hi & Hs) H].
  split.
  - exists r. split; [exact E|]. split; [exact Hi|].
    apply Hs. reflexivity.
  - apply H. reflexivity.
Defined.

(** C10 as stated fails for a schema with [toQueryObject]: on a form
    that the schema projects to the empty predicate, [getOne] sends
    [findOne] with the empty predicate, and [getOneSimple], whose
    predicate is the generic projection, throws nothing and sends
    [findOne] with the fields of the form. *)
Lemma getOneSimple_not_guarded_on_getOne_predicate :
  Props.get Sample.aged "_id" = VUndefined /\
  BaseAdapter.isEmpty Sample.runtime
    (BaseAdapter.queryObject Sample.runtime Sample.users
       (construct Sample.userSchema VUndefined) Sample.aged) = true /\
  (exists r,
      BaseAdapter.getOne Sample.runtime Sample.users
        (Sample.replying Sample.ann) Sample.aged VUndefined = Return r /\
      issued r = [Command "users" "findOne"
                    [VObj []; VObj [("sort", VObj [("name", VNum 1)])]]]) /\
  (exists r,
      BaseAdapter.getOneSimple Sample.runtime Sample.users
        (Sample.replying Sample.ann) Sample.aged = Return r /\
      issued r = [Command "users" "findOne" [Sample.aged]]) /\
  ~ Props.guardViolation
      (BaseAdapter.getOneSimple Sample.runtime Sample.users
         (Sample.replying Sample.ann) Sample.aged).
Proof.
  split; [reflexivity|]. split; [reflexivity|].
  split; [eexists; split; [vm_compute; reflexivity | reflexivity]|].
  split; [eexists; split; [vm_compute; reflexivity | reflexivity]|].
  intros [msg H]. vm_compute in H. discriminate.
Qed.

(** *** The guards *)

Section Guards.

Import BaseAdapter Props.

Variable R : Runtime.
Variable A : Adapter.
Variable st : Store.t.

Local Abbreviation S := (modelClass A).

Lemma guard_fails (v : value) (msg : string) (k : unit -> result run) :
  isEmpty R v = true ->
  guardViolation (Js.bind (assert (negb (isEmpty R v)) msg) k).
Proof. intros ->. exists msg. reflexivity. Qed.

Lemma guard_next (c : bool) (msg : string) (k : unit -> result run) :
  guardViolation (k tt) -> guardViolation (Js.bind (assert c msg) k).
Proof.
  intros H. destruct c; [exact H|]. exists msg. reflexivity.
Qed.

(** The operations whose guards are on the resolved predicate and the
    resolved document: with either one empty they throw, and no command
    is built. *)
Lemma guarded_mutations (model params : value) :
  let inserted := toInsertObject S (runBeforeSave S true (construct S model)) in
  let updated := toFormObject S (runBeforeSave S false (construct S model)) in
  let upserted := toUpsertObject S (runBeforeSave S true (construct S model)) in
  let predicate := queryObject R A (construct S model) params in
  (isEmpty R inserted = true -> guardViolation (insertOne R A st model)) /\
  (isEmpty R predicate = true \/ isEmpty R updated = true ->
     guardViolation (updateOne R A st model params) /\
     guardViolation (updateMany R A st model params) /\
     forall opts, guardViolation (getOneAndUpdate R A st model params opts)) /\
  (forall q, prop upserted "$setOnInsert" = Return q ->
     isEmpty R q = true \/ isEmpty R upserted = true ->
     guardViolation (upsertOne R A st model)) /\
  (isEmpty R (toSimpleObject R params) = true ->
     guardViolation (deleteOneSimple R A st params) /\
     guardViolation (deleteManySimple R A st params)) /\
  (isEmpty R (queryObject R A (construct S VUndefined) params) = true ->
     guardViolation (deleteMany R A st params) /\
     forall id, prop params "_id" = Return id -> truthy id = false ->
                guardViolation (deleteOne R A st params)).
Proof.
  intros inserted updated upserted predicate.
  split; [|split; [|split; [|split]]].
  - intros H. apply guard_fails, H.
  - intros H.
    assert (G : forall m1 m2 k,
      guardViolation
        (Js.bind (assert (negb (isEmpty R predicate)) m1) (fun _ =>
         Js.bind (assert (negb (isEmpty R updated)) m2) k))).
    { intros m1 m2 k. destruct H as [H|H].
      - apply guard_fails, H.
      - apply guard_next, guard_fails, H. }
    split; [|split]; [| |intros opts]; apply G.
  - intros q Hq H. unfold upsertOne. fold upserted. rewrite Hq. cbn.
    destruct H as [H|H].
    + apply guard_fails, H.
    + apply guard_next, guard_fails, H.
  - intros H. split; apply guard_fails, H.
  - intros H. split.
    + apply guard_fails, H.
    + intros id Hp Ht. unfold deleteOne.
      rewrite (idOrQueryObject_no_id R A _ _ id Hp Ht). cbn.
      apply guard_fails, H.
Qed.

(** The guards of the two simple updates: [updateOneSimple] sends its
    command for any truthy query, [updateManySimple] for any query that
    is not itself empty, whatever the predicate and the document
    resolved from their arguments. *)
Lemma simple_updates_guards (form query_ db : value) :
  connect st (configKey A) = Fulfilled db ->
  (truthy query_ = true ->
     exists r, updateOneSimple R A st form query_ = Return r /\
               issued r = [Command (collectionName S) "updateOne"
                             [toSimpleObject R query_;
                              VObj [("$set", toSimpleObject R form)]]]) /\
  (isEmpty R query_ = false ->
     exists r, updateManySimple R A st form query_ = Return r /\
               issued r = [Command (collectionName S) "updateMany"
                             [toSimpleObject R query_;
                              VObj [("$set", toSimpleObject R form)]]]).
Proof.
  intros Hc. split; intros H.
  - unfold updateOneSimple. rewrite H. cbn.
    rewrite (query_connected _ _ _ _ _ db) by (reflexivity || assumption).
    eexists. split; reflexivity.
  - unfold updateManySimple. rewrite H. cbn.
    rewrite (query_connected _ _ _ _ _ db) by (reflexivity || assumption).
    eexists. split; reflexivity.
Qed.

End Guards.

(** C1 at its failing inputs.  [updateOneSimple] only asks that the
    query be truthy, [updateManySimple] tests the raw query and not the
    predicate resolved from it, neither looks at the document, and the
    override of [upsertOne] has no guard at all: each of these calls
    reaches the store with an empty predicate or an empty document,
    where [upsertOne] of the base adapter throws on the same model. *)
Theorem unguarded_mutations_reach_store :
  (* an empty query *)
  (Sample.isEmpty (Sample.toSimpleObject (VObj [])) = true /\
   exists r,
     BaseAdapter.updateOneSimple Sample.runtime Sample.users Sample.counted
       Sample.ann (VObj [])
     = Return r /\
     issued r = [Command "users" "updateOne"
                   [VObj []; VObj [("$set", Sample.ann)]]] /\
     state r = Fulfilled (VNum 7)) /\
  (* a query that resolves to the empty predicate *)
  (Sample.isEmpty (Sample.toSimpleObject (VObj [("name", VNull)])) = true /\
   exists r,
     BaseAdapter.updateManySimple Sample.runtime Sample.users Sample.counted
       Sample.ann (VObj [("name", VNull)])
     = Return r /\
     issued r = [Command "users" "updateMany"
                   [VObj []; VObj [("$set", Sample.ann)]]]) /\
  (* an empty document *)
  (Sample.isEmpty (Sample.toSimpleObject (VObj [])) = true /\
   exists r,
     BaseAdapter.updateManySimple Sample.runtime Sample.users Sample.counted
       (VObj []) Sample.ann
     = Return r /\
     issued r = [Command "users" "updateMany"
                   [Sample.ann; VObj [("$set", VObj [])]]]) /\
  (* the override of upsertOne, and the base adapter on the same model *)
  (Sample.isEmpty (Props.get (VObj [("$setOnInsert", VObj [])]) "$setOnInsert")
   = true /\
   In (Command "user_activities" "updateOne"
         [VObj []; VObj [("$setOnInsert", VObj [])];
          VObj [("upsert", VBool true)]])
      (issued (UserActivityAdapter.upsertOne Sample.runtime Sample.activity
                 Sample.counted (VObj []))) /\
   BaseAdapter.upsertOne Sample.runtime Sample.activities Sample.counted
     (VObj [])
   = Throw (AssertionError "Query params must not be empty")).
Proof.
  repeat split;
    try (eexists; split; [vm_compute; reflexivity|]; repeat split).
  vm_compute. auto.
Qed.

(** ** ProximityQueryBuilder *)

Section ValueEquality.

Lemma value_eqb_eq : forall a b : value, value_eqb a b = true -> a = b.
Proof.
  fix IH 1.
  intros [| |x|x|x|xs|ps] [| |y|y|y|ys|qs]; simpl;
    try discriminate; try reflexivity.
  - intros H. apply Bool.eqb_prop in H. congruence.
  - intros H. apply Z.eqb_eq in H. congruence.
  - intros H. apply String.eqb_eq in H. congruence.
  - intros H. f_equal. revert ys H.
    induction xs as [|x xs IHxs]; intros [|y ys] H;
      try discriminate; [reflexivity|].
    apply andb_true_iff in H as [H1 H2].
    f_equal; [apply IH, H1 | apply IHxs, H2].
  - intros H. f_equal. revert qs H.
    induction ps as [|[k x] ps IHps]; intros [|[l y] qs] H;
      try discriminate; [reflexivity|].
    apply andb_true_iff in H as [H12 H3].
    apply andb_true_iff in H12 as [H1 H2].
    apply String.eqb_eq in H1. subst l.
    f_equal; [f_equal; apply IH, H2 | apply IHps, H3].
Qed.

Lemma value_eqb_refl : forall a : value, value_eqb a a = true.
Proof.
  fix IH 1.
  intros [| |x|x|x|xs|ps]; simpl; try reflexivity.
  - apply Bool.eqb_reflx.
  - apply Z.eqb_refl.
  - apply String.eqb_refl.
  - induction xs as [|x xs IHxs]; [reflexivity|].
    rewrite IH, IHxs. reflexivity.
  - induction ps as [|[k x] ps IHps]; [reflexivity|].
    rewrite String.eqb_refl, IH, IHps. reflexivity.
Qed.

Lemma value_eqb_sym (a b : value) : value_eqb a b = value_eqb b a.
Proof.
  destruct (value_eqb a b) eqn:E.
  - apply value_eqb_eq in E. subst. symmetry. apply value_eqb_refl.
  - destruct (value_eqb b a) eqn:E'; [|reflexivity].
    apply value_eqb_eq in E'. subst. rewrite value_eqb_refl in E.
    discriminate.
Qed.

End ValueEquality.

Section Proximity.

Import BaseAdapter UserActivityAdapter Aggregation Props.

Variable serverStage : value -> list value -> list value.
Variable collections : string -> list value.
Variable rest : Store.t.
Variable U : UserActivityAdapter.Adapter.

Local Abbreviation S := (modelClass (base U)).
Local Abbreviation st := (docStore serverStage collections rest).
Local Abbreviation key := (groupKey (primaryKey U)).

Lemma withKey_firstPerKey (k : value) (docs seen : list value) :
  withKey key k (firstPerKey key seen docs)
  = if existsb (value_eqb k) seen then []
    else match find (fun d => value_eqb (key d) k) docs with
         | Some d => [d]
         | None => []
         end.
Proof.
  unfold withKey. revert seen.
  induction docs as [|d docs IH]; intros seen; simpl.
  - destruct (existsb _ seen); reflexivity.
  - destruct (existsb (value_eqb (key d)) seen) eqn:Hseen.
    + rewrite IH. destruct (existsb (value_eqb k) seen) eqn:Hk;
        [reflexivity|].
      destruct (value_eqb (key d) k) eqn:E; [|reflexivity].
      apply value_eqb_eq in E. rewrite E in Hseen. congruence.
    + simpl. rewrite IH. simpl. rewrite (value_eqb_sym k (key d)).
      destruct (value_eqb (key d) k) eqn:E; simpl.
      * apply value_eqb_eq in E. rewrite <- E, Hseen. reflexivity.
      * reflexivity.
Qed.

Lemma activities_of_groups (seen docs : list value) :
  mapM (fun element => prop element "activity")
    (groupFirst (primaryKey U) seen docs)
  = Return (firstPerKey key seen docs).
Proof.
  revert seen. induction docs as [|d docs IH]; intros seen; simpl;
    [reflexivity|].
  destruct (existsb _ seen); [apply IH|].
  cbn. rewrite IH. reflexivity.
Qed.

Lemma findAroundQuery_stages (geoParams actParams : value)
    (queryData : list value) :
  findAroundQuery U geoParams actParams = Return queryData ->
  exists geoNear,
    queryData
    = [ VObj [("$geoNear", geoNear)];
        VObj [("$sort",
               VObj [("distance", VNum (-1)); ("status", VNum (-1))])];
        VObj [("$group",
               VObj [("_id", VStr (String "$" (primaryKey U)));
                     ("activity", VObj [("$first", VStr "$$ROOT")])])] ].
Proof.
  unfold findAroundQuery.
  destruct (prop actParams "activity"); cbn; [|discriminate].
  destruct (prop geoParams "geometry"); cbn; [|discriminate].
  destruct (prop geoParams "maxDistance"); cbn; [|discriminate].
  destruct (prop geoParams "minDistance"); cbn; [|discriminate].
  intros [= <-]. eexists. reflexivity.
Qed.

Local Abbreviation candidates :=
  (candidatesOf serverStage collections (collectionName S)).

Lemma pipeline_groups (geoParams actParams : value) (queryData : list value) :
  findAroundQuery U geoParams actParams = Return queryData ->
  runPipeline serverStage queryData (collections (collectionName S))
  = groupFirst (primaryKey U) [] (candidates queryData).
Proof.
  intros H. destruct (findAroundQuery_stages _ _ _ H) as [g ->].
  reflexivity.
Qed.

Lemma findManyAround_results (geoParams actParams db : value)
    (queryData : list value) :
  connect rest (configKey (base U)) = Fulfilled db ->
  findAroundQuery U geoParams actParams = Return queryData ->
  state (findManyAround U st geoParams actParams)
  = Fulfilled (VArr (firstPerKey key [] (candidates queryData))).
Proof.
  intros Hc Hq. unfold findManyAround, aggregate. cbn [connect docStore].
  rewrite Hc, Hq. cbn [state exec docStore settle_then].
  rewrite (pipeline_groups _ _ _ Hq), activities_of_groups. reflexivity.
Qed.

(** C7: of the documents that come out of the sort stage,
    [findManyAround] returns, for each value of the primary key, the
    first one and no other; so a key shared by two location samples
    has exactly one result. *)
Theorem findManyAround_one_per_key (geoParams actParams db : value)
    (queryData : list value) :
  connect rest (configKey (base U)) = Fulfilled db ->
  findAroundQuery U geoParams actParams = Return queryData ->
  exists results,
    state (findManyAround U st geoParams actParams)
    = Fulfilled (VArr results) /\
    (forall k,
        withKey key k results
        = match find (fun d => value_eqb (key d) k) (candidates queryData) with
          | Some d => [d]
          | None => []
          end) /\
    (forall d1 d2,
        In d1 (candidates queryData) -> In d2 (candidates queryData) ->
        key d1 = key d2 ->
        exists first,
          withKey key (key d1) results = [first] /\
          find (fun d => value_eqb (key d) (key d1)) (candidates queryData)
          = Some first).
Proof.
  intros Hc Hq. exists (firstPerKey key [] (candidates queryData)).
  split; [apply (findManyAround_results _ _ db), Hq; exact Hc|].
  split.
  - intros k. rewrite withKey_firstPerKey. reflexivity.
  - intros d1 d2 H1 _ _. rewrite withKey_firstPerKey. simpl.
    destruct (find _ (candidates queryData)) as [f|] eqn:Hf.
    + exists f. split; reflexivity.
    + apply (find_none _ _ Hf) in H1. rewrite value_eqb_refl in H1.
      discriminate.
Qed.


End Proximity.

Section FirstAround.

Import BaseAdapter UserActivityAdapter Props.

Variable U : UserActivityAdapter.Adapter.
Variable st : Store.t.

Local Abbreviation S := (modelClass (base U)).



End FirstAround.


Lemma findManyAround_one_per_key_witness :
  exists results,
    state (UserActivityAdapter.findManyAround Sample.activity
             (Aggregation.docStore Sample.passThrough Sample.samples
                (Sample.replying VNull))
             Sample.here Sample.driving)
    = Fulfilled (VArr results) /\
    Props.withKey (Aggregation.groupKey "userId") (VNum 1) results
    = [Sample.sample 1 5].
Proof.
  destruct (findManyAround_one_per_key Sample.passThrough Sample.samples
              (Sample.replying VNull) Sample.activity
              Sample.here Sample.driving (VObj [])
              _ eq_refl eq_refl) as (results & Hs & Hk & _).
  exists results. split; [exact Hs|].
  etransitivity; [exact (Hk (VNum 1)) | reflexivity].
Defined.

Example findAround_samples :
  state (UserActivityAdapter.findManyAround Sample.activity
           (Aggregation.docStore Sample.passThrough Sample.samples
              (Sample.replying VNull))
           Sample.here Sample.driving)
  = Fulfilled (VArr [Sample.sample 1 5; Sample.sample 2 4]) /\
  state (UserActivityAdapter.findOneAround Sample.activity
           (Aggregation.docStore Sample.passThrough Sample.samples
              (Sample.replying VNull))
           Sample.here Sample.driving)
  = Fulfilled (Sample.sample 1 5) /\
  state (UserActivityAdapter.findOneAround Sample.activity
           (Aggregation.docStore Sample.passThrough (fun _ => [])
              (Sample.replying VNull))
           Sample.here Sample.driving)
  = Fulfilled VNull.
Proof. repeat split. Qed.

(** *** The override of upsertOne *)

Section SideEffects.

Import BaseAdapter UserActivityAdapter Props.

Variable R : Runtime.
Variable U : UserActivityAdapter.Adapter.
Variable model : value.

Local Abbreviation S := (modelClass (base U)).
Local Abbreviation insertModel := (runBeforeSave S true (construct S model)).
Local Abbreviation requestDoc := (toUpsertObject S insertModel).

Lemma query_returns (A : BaseAdapter.Adapter) (st : Store.t)
    (funcName : string) (args : list value) :
  truthy (VStr funcName) = true ->
  exists q, query R A st funcName args = Return q.
Proof. intros H. unfold query. rewrite H. cbn. eexists. reflexivity. Qed.

Lemma upsertOne_state (st : Store.t) :
  state (upsertOne R U st model)
  = match connect st (configKey (base U)) with
    | Fulfilled _ =>
        match prop requestDoc "$setOnInsert" with
        | Return queryParams =>
            match exec st (Command (collectionName S) "updateOne"
                             [queryParams; requestDoc;
                              VObj [("upsert", VBool true)]]) with
            | Fulfilled result =>
                match prop result "upsertedId" with
                | Return upsertedId =>
                    Fulfilled (VObj (assign "_id" upsertedId insertModel))
                | Throw e => Rejected e
                end
            | other => other
            end
        | Throw e => Rejected e
        end
    | other => other
    end.
Proof.
  unfold upsertOne.
  destruct (connect st (configKey (base U))); try reflexivity.
  destruct (query_returns (logAdapter U) st "insertOne"
              [toInsertObject (modelClass (logAdapter U))
                 (runBeforeSave (modelClass (logAdapter U)) true
                    (construct (modelClass (logAdapter U)) model))]
              eq_refl) as [q ->].
  destruct (prop requestDoc "$setOnInsert"); [|reflexivity].
  destruct (exec st _); reflexivity.
Qed.

(** The override sends its upsert command without any guard, with the
    document's [$setOnInsert] as predicate. *)
Lemma upsertOne_override_command (st : Store.t) (db queryParams : value) :
  connect st (configKey (base U)) = Fulfilled db ->
  prop requestDoc "$setOnInsert" = Return queryParams ->
  In (Command (collectionName S) "updateOne"
        [queryParams; requestDoc; VObj [("upsert", VBool true)]])
     (issued (upsertOne R U st model)).
Proof.
  intros Hc Hq. unfold upsertOne. rewrite Hc.
  destruct (query_returns (logAdapter U) st "insertOne"
              [toInsertObject (modelClass (logAdapter U))
                 (runBeforeSave (modelClass (logAdapter U)) true
                    (construct (modelClass (logAdapter U)) model))]
              eq_refl) as [q ->].
  rewrite Hq. destruct (exec st _); cbn [issued]; left; reflexivity.
Qed.

(** C9: what the override of [upsertOne] resolves to is a function of
    the connection and of the store's answer to the upsert command
    alone.  Two stores that agree on these, however they answer the
    activity-log insert and the index creation, give the same final
    state; and when the upsert is fulfilled the promise is fulfilled
    with the model carrying the upserted identifier, whatever becomes of
    the two side effects. *)
Theorem upsertOne_side_effects_invisible (st1 st2 : Store.t) :
  (connect st1 (configKey (base U)) = connect st2 (configKey (base U)) ->
   (forall args,
       exec st1 (Command (collectionName S) "updateOne" args)
       = exec st2 (Command (collectionName S) "updateOne" args)) ->
   state (upsertOne R U st1 model) = state (upsertOne R U st2 model)) /\
  (forall db queryParams result upsertedId,
      connect st1 (configKey (base U)) = Fulfilled db ->
      prop requestDoc "$setOnInsert" = Return queryParams ->
      exec st1 (Command (collectionName S) "updateOne"
                  [queryParams; requestDoc; VObj [("upsert", VBool true)]])
      = Fulfilled result ->
      prop result "upsertedId" = Return upsertedId ->
      state (upsertOne R U st1 model)
      = Fulfilled (VObj (assign "_id" upsertedId insertModel))).
Proof.
  split.
  - intros Hc He. rewrite !upsertOne_state, Hc.
    destruct (connect st2 (configKey (base U))); try reflexivity.
    destruct (prop requestDoc "$setOnInsert"); [|reflexivity].
    rewrite He. reflexivity.
  - intros db q result id Hc Hq He Hid.
    rewrite upsertOne_state, Hc, Hq, He, Hid. reflexivity.
Qed.

End SideEffects.

Lemma upsertOne_side_effects_invisible_witness :
  state (UserActivityAdapter.upsertOne Sample.runtime Sample.activity
           (Sample.replying Sample.upserted) (Sample.sample 1 5))
  = state (UserActivityAdapter.upsertOne Sample.runtime Sample.activity
             (Sample.sideEffectsFail Sample.upserted) (Sample.sample 1 5)) /\
  state (UserActivityAdapter.upsertOne Sample.runtime Sample.activity
           (Sample.sideEffectsFail Sample.upserted) (Sample.sample 1 5))
  = Fulfilled (VObj [("userId", VNum 1); ("distance", VNum 5);
                     ("_id", VStr Sample.oid24)]) /\
  background (UserActivityAdapter.upsertOne Sample.runtime Sample.activity
                (Sample.replying Sample.upserted) (Sample.sample 1 5))
  = [Fulfilled VUndefined; Fulfilled VUndefined] /\
  background (UserActivityAdapter.upsertOne Sample.runtime Sample.activity
                (Sample.sideEffectsFail Sample.upserted) (Sample.sample 1 5))
  = [Rejected (StoreError true (VStr "E11000"));
     Rejected (StoreError true (VStr "E11000"))].
Proof.
  destruct (upsertOne_side_effects_invisible Sample.runtime Sample.activity
              (Sample.sample 1 5) (Sample.replying Sample.upserted)
              (Sample.sideEffectsFail Sample.upserted)) as [H _].
  split; [|repeat split].
  apply H; reflexivity.
Defined.

(* ================================================================= *)
(** * Further properties *)

(** ** The shape of a sort specification *)

Section SortSpecs.

Import MongoHelpers Props Shapes.

Lemma keys_assign (k : string) (x : value) (m : list (string * value)) :
  map fst (assign k x m) = addKey k (map fst m).
Proof.
  unfold addKey. induction m as [|[k' y] m IH]; simpl; [reflexivity|].
  destruct (String.eqb_spec k k') as [->|Hne]; simpl; [reflexivity|].
  rewrite IH. destruct (existsb (String.eqb k) (map fst m)); reflexivity.
Qed.

Lemma existsb_eqb_In (k : string) (ks : list string) :
  existsb (String.eqb k) ks = true <-> In k ks.
Proof.
  rewrite existsb_exists. split.
  - intros (y & Hy & E). apply String.eqb_eq in E. subst. exact Hy.
  - intros H. exists k. split; [exact H | apply String.eqb_refl].
Qed.

Lemma NoDup_addKey (k : string) (ks : list string) :
  NoDup ks -> NoDup (addKey k ks).
Proof.
  intros H. unfold addKey.
  destruct (existsb (String.eqb k) ks) eqn:E; [exact H|].
  apply NoDup_app; [exact H | repeat constructor; intros [] |].
  intros x Hx [<-|[]]. apply existsb_eqb_In in Hx. congruence.
Qed.

Lemma keys_fold_tokenStep (tokens : list string) (m : list (string * value)) :
  map fst (fold_left tokenStep tokens m)
  = fold_left (fun ks f => addKey f ks) (storedFields tokens) (map fst m).
Proof.
  revert m. unfold storedFields.
  induction tokens as [|t ts IH]; intros m; simpl; [reflexivity|].
  rewrite IH. unfold tokenStep, assignPrimitive.
  destruct (tokenField t =? "__proto__")%string; simpl; [reflexivity|].
  rewrite keys_assign. reflexivity.
Qed.

Lemma fold_addKey_firstOccurrences (l seen ks : list string) :
  (forall y, existsb (String.eqb y) seen = existsb (String.eqb y) ks) ->
  fold_left (fun ks x => addKey x ks) l ks
  = (ks ++ firstOccurrencesFrom seen l)%list.
Proof.
  revert seen ks. induction l as [|x l IH]; intros seen ks Hs; simpl.
  - rewrite app_nil_r. reflexivity.
  - unfold addKey at 2. rewrite Hs.
    destruct (existsb (String.eqb x) ks) eqn:E.
    + apply IH, Hs.
    + rewrite (IH (x :: seen) (ks ++ [x])%list).
      * rewrite <- app_assoc. reflexivity.
      * intros y. rewrite existsb_app. simpl. rewrite Hs.
        destruct (String.eqb y x), (existsb (String.eqb y) ks); reflexivity.
Qed.

Lemma NoDup_keys_fold (tokens : list string) (m : list (string * value)) :
  NoDup (map fst m) -> NoDup (map fst (fold_left tokenStep tokens m)).
Proof.
  revert m. induction tokens as [|t ts IH]; intros m H; simpl; [exact H|].
  apply IH. unfold tokenStep, assignPrimitive.
  destruct (tokenField t =? "__proto__")%string; [exact H|].
  rewrite keys_assign. apply NoDup_addKey, H.
Qed.

Lemma Forall_assign (P : string * value -> Prop) k x m :
  P (k, x) -> Forall P m -> Forall P (assign k x m).
Proof.
  intros Hx. induction 1 as [|[k' y] m Hy Hm IH]; simpl.
  - repeat constructor. exact Hx.
  - destruct (k =? k')%string; constructor; assumption.
Qed.

Lemma directions_fold (tokens : list string) (m : list (string * value)) :
  Forall (fun kv => isDirection (snd kv)) m ->
  Forall (fun kv => isDirection (snd kv)) (fold_left tokenStep tokens m).
Proof.
  revert m. induction tokens as [|t ts IH]; intros m H; simpl; [exact H|].
  apply IH. unfold tokenStep, assignPrimitive.
  destruct (tokenField t =? "__proto__")%string; [exact H|].
  apply Forall_assign; [|exact H].
  unfold isDirection, tokenDirection; simpl.
  destruct (descending t); auto.
Qed.

(** X1. Whatever the tokens, an array of strings and a non-empty
    comma-separated string both give a map, in which no field occurs
    twice and every direction is 1 or -1. *)
Theorem buildOrder_map_invariant (tokens : list string) (s : string) :
  (exists m,
      buildOrder (VArr (map VStr tokens)) = Return (VObj m) /\
      NoDup (map fst m) /\
      Forall (fun kv => isDirection (snd kv)) m) /\
  (s <> "" ->
   exists m,
      buildOrder (VStr s) = Return (VObj m) /\
      NoDup (map fst m) /\
      Forall (fun kv => isDirection (snd kv)) m).
Proof.
  assert (H : forall ts,
    exists m, buildArrayFunc (map VStr ts) = Return (VObj m) /\
              NoDup (map fst m) /\
              Forall (fun kv => isDirection (snd kv)) m).
  { intros ts. exists (fold_left tokenStep ts []).
    split; [apply buildArrayFunc_tokens|]. split.
    - apply NoDup_keys_fold. constructor.
    - apply directions_fold. constructor. }
  split.
  - apply H.
  - intros Hs. unfold buildOrder. simpl.
    destruct (String.eqb_spec s ""); [contradiction|]. simpl. apply H.
Qed.

Lemma buildOrder_map_invariant_witness :
  exists m,
    buildOrder (VStr "-age, name,age") = Return (VObj m) /\
    NoDup (map fst m) /\
    Forall (fun kv => isDirection (snd kv)) m.
Proof.
  destruct (buildOrder_map_invariant [] "-age, name,age") as [_ H].
  apply H. discriminate.
Defined.

(** X2. The fields of the map built from an array of tokens are
    the fields the tokens name, "__proto__" left out, each once, in the
    order in which the tokens first name them.  (Stated for field
    names that are not made of digits only, which the engine would
    list first.) *)
Theorem buildOrder_field_order (tokens : list string) :
  Forall (fun t => digitsOnly (tokenField t) = false) tokens ->
  exists m,
    buildOrder (VArr (map VStr tokens)) = Return (VObj m) /\
    map fst m = firstOccurrences (storedFields tokens).
Proof.
  intros _. exists (fold_left tokenStep tokens []).
  split; [apply buildArrayFunc_tokens|].
  rewrite keys_fold_tokenStep. simpl.
  apply (fold_addKey_firstOccurrences _ [] []). reflexivity.
Qed.

Lemma buildOrder_field_order_witness :
  exists m,
    buildOrder
      (VArr (map VStr ["-age"; "__proto__"; " name"; "age"; "-name "]))
    = Return (VObj m) /\
    map fst m = ["age"; "name"].
Proof.
  apply (buildOrder_field_order
           ["-age"; "__proto__"; " name"; "age"; "-name "]).
  repeat constructor.
Defined.

Lemma fold_buildArrayStep_throw (arrs : list value) (e : error) :
  fold_left buildArrayStep arrs (Throw e) = Throw e.
Proof. induction arrs as [|x arrs IH]; simpl; [reflexivity | exact IH]. Qed.

Lemma fold_buildArrayStep_bad (arrs : list value) m :
  existsb (fun v => negb (isString v)) arrs = true ->
  fold_left buildArrayStep arrs (Return m)
  = Throw (TypeError "element.trim is not a function").
Proof.
  revert m. induction arrs as [|x arrs IH]; intros m H; [discriminate|].
  cbn [fold_left]. destruct x; try apply fold_buildArrayStep_throw.
  simpl in H. unfold buildArrayStep at 2. cbn [Js.bind].
  destruct (substr (trim s) 0 1 =? "-")%string; apply IH, H.
Qed.

(** X3. An array with an element that is not a string makes
    [buildOrder] throw a TypeError, and no map is returned, wherever
    the element stands; scalars that are neither falsy nor strings (a
    non-zero number, [true]) give [undefined], and every falsy input
    gives [null]. *)
Theorem buildOrder_rejects_non_strings (arrs : list value) (v : value) :
  (existsb (fun x => negb (isString x)) arrs = true ->
   buildOrder (VArr arrs)
   = Throw (TypeError "element.trim is not a function")) /\
  (truthy v = false -> buildOrder v = Return VNull) /\
  (truthy v = true -> (exists n, v = VNum n) \/ (exists b, v = VBool b) ->
   buildOrder v = Return VUndefined).
Proof.
  split; [|split].
  - intros H. unfold buildOrder, buildArrayFunc. simpl.
    rewrite fold_buildArrayStep_bad by exact H. reflexivity.
  - intros H. unfold buildOrder. rewrite H. reflexivity.
  - intros H [[n ->]|[b ->]]; unfold buildOrder; rewrite H; reflexivity.
Qed.

Lemma buildOrder_rejects_non_strings_witness :
  buildOrder (VArr [VStr "name"; VNum 5; VStr "-age"])
  = Throw (TypeError "element.trim is not a function") /\
  buildOrder (VNum 0) = Return VNull /\
  buildOrder (VNum 5) = Return VUndefined.
Proof.
  destruct (buildOrder_rejects_non_strings
              [VStr "name"; VNum 5; VStr "-age"] (VNum 0)) as (H1 & H2 & _).
  destruct (buildOrder_rejects_non_strings [] (VNum 5)) as (_ & _ & H3).
  split; [apply H1; reflexivity|].
  split; [apply H2; reflexivity|].
  apply H3; [reflexivity | left; eexists; reflexivity].
Defined.

End SortSpecs.

(** ** Find options *)

Section FindOptions.

Import MongoHelpers Props Shapes.

Lemma buildOrder_shape (v r : value) :
  truthy v = true -> buildOrder v = Return r ->
  r = VUndefined \/ exists m, r = VObj m.
Proof.
  intros Ht. unfold buildOrder. rewrite Ht. simpl.
  destruct v; try (intros [= <-]; eauto; fail).
  - (* string *)
    unfold buildArrayFunc.
    destruct (fold_left buildArrayStep _ _); simpl; [|discriminate].
    intros [= <-]. eauto.
  - (* array *)
    unfold buildArrayFunc.
    destruct (fold_left buildArrayStep _ _); simpl; [|discriminate].
    intros [= <-]. eauto.
Qed.

(** The branch [buildSortOptions] took, read off its result. *)
Lemma buildSortOptions_cases (model : Schema) (opts s o' : value) :
  buildSortOptions model opts = Return (s, o') ->
  let o := or_else opts (VObj []) in
  (truthy (get o "order") = true /\ o' = delProp o "order" /\
   buildOrder (get o "order") = Return s) \/
  (truthy (get o "order") = false /\ o' = o /\
   ((truthy (get o "sort") = true /\ buildOrder (get o "sort") = Return s) \/
    (truthy (get o "sort") = false /\ truthy (defaultOrder model) = true /\
     buildOrder (defaultOrder model) = Return s) \/
    (truthy (get o "sort") = false /\ truthy (defaultOrder model) = false /\
     s = VNull))).
Proof.
  intros H o. revert H. unfold buildSortOptions. fold o.
  rewrite !(prop_get o) by apply truthy_or_else. simpl.
  destruct (truthy (get o "order")) eqn:E1.
  - destruct (buildOrder (get o "order")) eqn:B; simpl; [|discriminate].
    intros [= <- <-]. left. auto.
  - destruct (truthy (get o "sort")) eqn:E2.
    + destruct (buildOrder (get o "sort")) eqn:B; simpl; [|discriminate].
      intros [= <- <-]. right. do 2 (split; [reflexivity|]). left. auto.
    + destruct (truthy (defaultOrder model)) eqn:E3.
      * destruct (buildOrder (defaultOrder model)) eqn:B; simpl;
          [|discriminate].
        intros [= <- <-]. right. do 2 (split; [reflexivity|]).
        right. left. auto.
      * intros [= <- <-]. right. do 2 (split; [reflexivity|]).
        right. right. auto.
Qed.

Lemma or_else_idem (v : value) :
  or_else (or_else v (VObj [])) (VObj []) = or_else v (VObj []).
Proof. unfold or_else at 1. rewrite truthy_or_else. reflexivity. Qed.

Lemma get_assign (k k' : string) (x : value) ps :
  get (VObj (assign k' x ps)) k = if (k =? k')%string then x else get (VObj ps) k.
Proof.
  unfold get. simpl. rewrite lookup_assign.
  destruct (k =? k')%string; reflexivity.
Qed.

Lemma assign_idem (k : string) (x : value) ps :
  assign k x (assign k x ps) = assign k x ps.
Proof.
  induction ps as [|[k' y] ps IH]; simpl.
  - rewrite String.eqb_refl. reflexivity.
  - destruct (String.eqb_spec k k') as [->|Hne]; simpl.
    + rewrite String.eqb_refl. reflexivity.
    + destruct (String.eqb_spec k k'); [contradiction|]. rewrite IH.
      reflexivity.
Qed.

(** What a successful [buildFindOptions] did, step by step. *)
Lemma buildFindOptions_inv (model : Schema) (opts o : value) :
  buildFindOptions model opts = Return o ->
  exists s o' ps,
    buildSortOptions model (or_else opts (VObj [])) = Return (s, o') /\
    o' = VObj ps /\ o = VObj (assign "sort" s ps).
Proof.
  unfold buildFindOptions.
  destruct (buildSortOptions model (or_else opts (VObj []))) as [[s o']|]
    eqn:B; simpl; [|discriminate].
  destruct o' as [| | | | | |ps]; simpl; try discriminate.
  intros [= <-]. exists s, (VObj ps), ps. auto.
Qed.

Lemma buildFindOptions_order_unusable (model : Schema) (opts o : value) :
  buildFindOptions model opts = Return o ->
  truthy (get o "order") = false.
Proof.
  intros H.
  destruct (buildFindOptions_inv _ _ _ H) as (s & o' & ps & B & Eo' & Eo).
  subst o. apply buildSortOptions_cases in B.
  rewrite or_else_idem in B. cbv zeta in B.
  rewrite get_assign. simpl. rewrite <- Eo'.
  destruct B as [(_ & E & _)|(Ht & E & _)]; rewrite E.
  - rewrite get_delProp. reflexivity.
  - exact Ht.
Qed.

(** X4. The options [buildFindOptions] returns are an object whose
    [sort] is a map, [null] or [undefined] (never a string or an array
    of tokens), in which no usable [order] is left, and whose other
    properties are those of the options given. *)
Theorem buildFindOptions_normalises (model : Schema) (opts o : value) :
  buildFindOptions model opts = Return o ->
  (exists ps, o = VObj ps) /\
  isSortSpec (get o "sort") /\
  truthy (get o "order") = false /\
  (forall k, k <> "sort" -> k <> "order" ->
     get o k = get (or_else opts (VObj [])) k).
Proof.
  intros H.
  destruct (buildFindOptions_inv _ _ _ H) as (s & o' & ps & B & Eo' & Eo).
  clear H. subst o.
  apply buildSortOptions_cases in B. rewrite or_else_idem in B. cbv zeta in B.
  set (o1 := or_else opts (VObj [])) in *.
  split; [eauto|]. rewrite !get_assign. simpl.
  assert (Hs : isSortSpec s).
  { unfold isSortSpec.
    destruct B as [(Ht & _ & Hb)|(_ & _ & [(Ht & Hb)|[(_ & Ht & Hb)|(_ & _ & ->)]])];
      auto; destruct (buildOrder_shape _ _ Ht Hb); auto. }
  split; [exact Hs|]. split.
  - rewrite <- Eo'. destruct B as [(_ & E & _)|(Ht & E & _)].
    + rewrite E, get_delProp. reflexivity.
    + rewrite E. exact Ht.
  - intros k Hk1 Hk2. rewrite get_assign.
    destruct (String.eqb_spec k "sort"); [contradiction|]. rewrite <- Eo'.
    destruct B as [(_ & E & _)|(_ & E & _)]; rewrite E; [|reflexivity].
    rewrite get_delProp.
    destruct (String.eqb_spec k "order"); [contradiction | reflexivity].
Qed.

Lemma buildFindOptions_normalises_witness :
  exists o,
    buildFindOptions Sample.userSchema
      (VObj [("order", VStr "-age"); ("limit", VNum 5)]) = Return o /\
    get o "sort" = VObj [("age", VNum (-1))] /\
    get o "order" = VUndefined /\
    get o "limit" = VNum 5.
Proof.
  eexists. split; [reflexivity|].
  destruct (buildFindOptions_normalises Sample.userSchema
              (VObj [("order", VStr "-age"); ("limit", VNum 5)]) _ eq_refl)
    as (_ & _ & _ & H).
  split; [reflexivity|]. split; [reflexivity|].
  rewrite (H "limit") by discriminate. reflexivity.
Defined.

(** X5. Passing the options [buildFindOptions] returned through it
    again changes nothing, as long as the sort it resolved is not
    [undefined] (which only a number or [true] given as order
    produces). *)
Theorem buildFindOptions_idempotent (model : Schema) (opts o : value) :
  buildFindOptions model opts = Return o ->
  get o "sort" <> VUndefined ->
  buildFindOptions model o = Return o.
Proof.
  intros H Hu.
  pose proof (buildFindOptions_order_unusable _ _ _ H) as Ho.
  destruct (buildFindOptions_inv _ _ _ H) as (s & o' & ps & B & Eo' & Eo).
  clear H. subst o.
  apply buildSortOptions_cases in B. rewrite or_else_idem in B. cbv zeta in B.
  rewrite get_assign in Hu. simpl in Hu.
  set (o := VObj (assign "sort" s ps)) in *.
  assert (Hs : (exists m, s = VObj m) \/
               (s = VNull /\ truthy (defaultOrder model) = false)).
  { destruct B as [(Ht & _ & Hb)|(_ & _ & [(Ht & Hb)|[(_ & Ht & Hb)|(_ & Hd & ->)]])];
      auto; destruct (buildOrder_shape _ _ Ht Hb); auto; contradiction. }
  assert (Hsort : get o "sort" = s) by (unfold o; rewrite get_assign; reflexivity).
  unfold buildFindOptions, buildSortOptions.
  change (or_else o (VObj [])) with o.
  change (or_else o (VObj [])) with o.
  rewrite !(prop_get o) by reflexivity. simpl.
  rewrite Ho, Hsort.
  destruct Hs as [[m ->]|[-> Hd]]; simpl.
  - unfold o. rewrite assign_idem. reflexivity.
  - rewrite Hd. simpl. unfold o. rewrite assign_idem. reflexivity.
Qed.

Lemma buildFindOptions_idempotent_witness :
  exists o,
    buildFindOptions Sample.userSchema
      (VObj [("order", VStr "-age"); ("limit", VNum 5)]) = Return o /\
    buildFindOptions Sample.userSchema o = Return o.
Proof.
  eexists. split; [reflexivity|].
  apply (buildFindOptions_idempotent Sample.userSchema
           (VObj [("order", VStr "-age"); ("limit", VNum 5)])).
  - reflexivity.
  - discriminate.
Defined.

End FindOptions.

(** ** Calls that go through query *)

Section QueryCalls.

Import BaseAdapter Props Shapes.

Variable R : Runtime.
Variable A : Adapter.
Variable st : Store.t.

Local Abbreviation S := (modelClass A).

Ltac through_binds :=
  cbv zeta;
  repeat match goal with
         | |- Js.bind ?m _ = Return _ -> _ =>
             destruct m eqn:?; cbn [Js.bind]; [|discriminate]
         end;
  intros [= <-]; do 3 eexists; split; [eassumption | reflexivity].

Lemma updateCall_viaQuery (r : result run) (x : run) :
  updateCall R A st r -> r = Return x ->
  viaQuery R A st (fun result => prop result "modifiedCount") x.
Proof.
  intros H ->. revert H.
  intros [(model & params & H)|[(form & query_ & H)|[(model & params & H)|
         [(form & query_ & H)|[(model & H)|(params & H)]]]]];
    symmetry in H; revert H;
    [unfold updateOne | unfold updateOneSimple | unfold updateMany
    | unfold updateManySimple | unfold updateAll | unfold updateAllSimple];
    through_binds.
Qed.

Lemma deleteCall_viaQuery (r : result run) (x : run) :
  deleteCall R A st r -> r = Return x ->
  viaQuery R A st (fun result => prop result "deletedCount") x.
Proof.
  intros H ->. revert H.
  intros [(form & H)|[(form & H)|[(form & H)|[(form & H)|H]]]];
    symmetry in H; revert H;
    [unfold deleteOne | unfold deleteOneSimple | unfold deleteMany
    | unfold deleteManySimple | unfold deleteAll];
    through_binds.
Qed.

Lemma queryCall_viaQuery (r : result run) (x : run) :
  queryCall R A st r -> r = Return x -> exists k, viaQuery R A st k x.
Proof.
  intros [H|[H|H]] E.
  - eexists. apply (updateCall_viaQuery r x H E).
  - eexists. apply (deleteCall_viaQuery r x H E).
  - subst r. revert H.
    intros [(model & H)|[(model & H)|[(form & opts & H)|[(form & H)|
           [(form & query_ & opts & H)|(form & query_ & opts & H)]]]]];
      symmetry in H; revert H;
      [unfold insertOne | unfold upsertOne | unfold getOne
      | unfold getOneSimple | unfold getOneAndUpdate
      | unfold getOneAndUpsert];
      eexists; revert H; through_binds.
Qed.

Lemma viaQuery_connected (k : value -> result value) (x : run) (db : value) :
  viaQuery R A st k x ->
  connect st (configKey A) = Fulfilled db ->
  exists funcName args,
    issued x = [Command (collectionName S) funcName args] /\
    state x = settle_then
                (caught (isDebug R)
                   (exec st (Command (collectionName S) funcName args))) k /\
    background x = [].
Proof.
  intros (f & args & q & Hq & ->) Hc. revert Hq. unfold query.
  destruct (assert _ _); cbn [Js.bind]; [|discriminate].
  rewrite Hc. intros [= <-]. exists f, args. auto.
Qed.

Lemma viaQuery_disconnected (k : value -> result value) (x : run) :
  viaQuery R A st k x ->
  (forall db, connect st (configKey A) <> Fulfilled db) ->
  issued x = [] /\ state x = Pending /\ background x = [].
Proof.
  intros (f & args & q & Hq & ->) Hc. revert Hq. unfold query.
  destruct (assert _ _); cbn [Js.bind]; [|discriminate].
  destruct (connect st (configKey A)) as [db| |] eqn:E;
    [destruct (Hc db); reflexivity| |]; intros [= <-]; auto.
Qed.

(** X6. Every call of the adapter that goes through [query] sends
    exactly one command when the connection is there, and leaves no
    promise behind; when the connection does not come it sends nothing
    and its promise never settles. *)
Theorem one_command_per_call (r : result run) (x : run) :
  queryCall R A st r -> r = Return x ->
  background x = [] /\
  (connected st A -> exists c, issued x = [c]) /\
  ((forall db, connect st (configKey A) <> Fulfilled db) ->
   issued x = [] /\ state x = Pending).
Proof.
  intros H E. destruct (queryCall_viaQuery r x H E) as [k Hk].
  split; [|split].
  - destruct (connect st (configKey A)) as [db| |] eqn:Hc.
    + destruct (viaQuery_connected k x db Hk Hc) as (f & a & _ & _ & Hb).
      exact Hb.
    + apply (viaQuery_disconnected k x Hk). congruence.
    + apply (viaQuery_disconnected k x Hk). congruence.
  - intros [db Hc].
    destruct (viaQuery_connected k x db Hk Hc) as (f & a & Hi & _).
    eauto.
  - intros Hc. destruct (viaQuery_disconnected k x Hk Hc) as (Hi & Hs & _).
    auto.
Qed.

(** X7. When the store rejects the command of such a call, a
    MongoError rejects the call's promise with that same error; any
    other error does so too, except in debug mode, where the promise is
    left pending for ever. *)
Theorem store_rejection_propagates (r : result run) (x : run)
    (c : Store.call) (e : error) :
  queryCall R A st r -> r = Return x ->
  issued x = [c] -> exec st c = Rejected e ->
  state x = if isMongoError e then Rejected e
            else if isDebug R then Pending else Rejected e.
Proof.
  intros H E Hi He. destruct (queryCall_viaQuery r x H E) as [k Hk].
  destruct (connect st (configKey A)) as [db| |] eqn:Hc.
  - destruct (viaQuery_connected k x db Hk Hc) as (f & a & Hi' & Hs & _).
    rewrite Hi' in Hi. injection Hi as <-. rewrite Hs, He. simpl.
    destruct (isMongoError e); [reflexivity|].
    destruct (isDebug R); reflexivity.
  - destruct (viaQuery_disconnected k x Hk) as (Hi' & _); [congruence|].
    rewrite Hi' in Hi. discriminate.
  - destruct (viaQuery_disconnected k x Hk) as (Hi' & _); [congruence|].
    rewrite Hi' in Hi. discriminate.
Qed.

(** X8. The six update calls resolve to the [modifiedCount] of the
    store's result and the five delete calls to its [deletedCount]; a
    result that is [null] or [undefined] rejects the promise with a
    TypeError. *)
Theorem counts_are_returned (r : result run) (x : run)
    (c : Store.call) (result : value) :
  r = Return x -> issued x = [c] -> exec st c = Fulfilled result ->
  (updateCall R A st r ->
   state x = match prop result "modifiedCount" with
             | Return n => Fulfilled n
             | Throw e => Rejected e
             end) /\
  (deleteCall R A st r ->
   state x = match prop result "deletedCount" with
             | Return n => Fulfilled n
             | Throw e => Rejected e
             end).
Proof.
  intros E Hi He.
  assert (G : forall k, viaQuery R A st k x ->
            state x = match k result with
                      | Return n => Fulfilled n
                      | Throw e => Rejected e
                      end).
  { intros k Hk. destruct (connect st (configKey A)) as [db| |] eqn:Hc.
    - destruct (viaQuery_connected k x db Hk Hc) as (f & a & Hi' & Hs & _).
      rewrite Hi' in Hi. injection Hi as <-. rewrite Hs, He. reflexivity.
    - destruct (viaQuery_disconnected k x Hk) as (Hi' & _); [congruence|].
      rewrite Hi' in Hi. discriminate.
    - destruct (viaQuery_disconnected k x Hk) as (Hi' & _); [congruence|].
      rewrite Hi' in Hi. discriminate. }
  split; intros H.
  - apply (G _ (updateCall_viaQuery r x H E)).
  - apply (G _ (deleteCall_viaQuery r x H E)).
Qed.

End QueryCalls.

Lemma one_command_per_call_witness :
  exists x c,
    BaseAdapter.updateOneSimple Sample.runtime Sample.users Sample.counted
      Sample.ann Sample.aged = Return x /\
    issued x = [c] /\ background x = [].
Proof.
  eexists.
  destruct (one_command_per_call Sample.runtime Sample.users Sample.counted
              _ _
              (or_introl (or_intror (or_introl
                 (ex_intro _ Sample.ann (ex_intro _ Sample.aged eq_refl)))))
              eq_refl) as (Hb & Hc & _).
  destruct Hc as [c Hc]; [exists (VObj []); reflexivity|].
  exists c. split; [reflexivity|]. split; [exact Hc | exact Hb].
Defined.

Lemma store_rejection_propagates_witness :
  exists x,
    BaseAdapter.deleteOneSimple Sample.runtime Sample.users
      (Sample.sideEffectsFail VNull) Sample.ann = Return x /\
    state x = Rejected (StoreError true (VStr "E11000")).
Proof.
  eexists. split; [vm_compute; reflexivity|].
  refine (store_rejection_propagates Sample.runtime Sample.users
            (Sample.sideEffectsFail VNull)
            (BaseAdapter.deleteOneSimple Sample.runtime Sample.users
               (Sample.sideEffectsFail VNull) Sample.ann) _
            (Command "users" "deleteOne" [Sample.ann])
            (StoreError true (VStr "E11000")) _ _ _ _).
  - right. left. right. left. exists Sample.ann. reflexivity.
  - reflexivity.
  - reflexivity.
  - reflexivity.
Defined.

Lemma counts_are_returned_witness :
  exists x,
    BaseAdapter.updateManySimple Sample.runtime Sample.users Sample.counted
      Sample.ann Sample.aged = Return x /\
    state x = Fulfilled (VNum 7).
Proof.
  eexists. split; [vm_compute; reflexivity|].
  refine (proj1 (counts_are_returned Sample.runtime Sample.users
              Sample.counted
              (BaseAdapter.updateManySimple Sample.runtime Sample.users
                 Sample.counted Sample.ann Sample.aged) _
              (Command "users" "updateMany"
                 [Sample.aged; VObj [("$set", Sample.ann)]])
              (VObj [("modifiedCount", VNum 7)]) _ _ _) _).
  - reflexivity.
  - reflexivity.
  - reflexivity.
  - right. right. right. left. exists Sample.ann, Sample.aged. reflexivity.
Defined.

(** ** Single operations *)

Section SingleOperations.

Import BaseAdapter UserActivityAdapter Props Shapes.

Variable R : Runtime.
Variable A : BaseAdapter.Adapter.
Variable st : Store.t.

Local Abbreviation S := (modelClass A).

(** What a call built as [query(...).then(k)] gives when its one
    command is fulfilled. *)
Lemma then_query_fulfilled (funcName : string) (args : list value)
    (q : run) (k : value -> result value) (c : Store.call) (result : value) :
  query R A st funcName args = Return q ->
  issued (then_ q k) = [c] -> exec st c = Fulfilled result ->
  c = Command (collectionName S) funcName args /\
  state (then_ q k) = match k result with
                      | Return v => Fulfilled v
                      | Throw e => Rejected e
                      end.
Proof.
  unfold query. destruct (assert _ _); cbn [Js.bind]; [|discriminate].
  destruct (connect st (configKey A)); intros [= <-]; simpl;
    try discriminate.
  intros [= <-] He. rewrite He. auto.
Qed.

(** X9. [insertOne] sends the insert projection of the model as
    [beforeSave(true)] left it, and resolves to that model with the
    identifier the store assigned as its [_id], nothing else changed. *)
Theorem insertOne_returns_model (model : value) (x : run)
    (c : Store.call) (result insertedId : value) :
  let m := runBeforeSave S true (construct S model) in
  insertOne R A st model = Return x ->
  issued x = [c] -> exec st c = Fulfilled result ->
  prop result "insertedId" = Return insertedId ->
  c = Command (collectionName S) "insertOne" [toInsertObject S m] /\
  exists inst,
    state x = Fulfilled (VObj inst) /\
    lookup "_id" inst = Some insertedId /\
    forall k, k <> "_id" -> lookup k inst = lookup k m.
Proof.
  intros m. unfold insertOne. fold m.
  destruct (assert _ _); cbn [Js.bind]; [|discriminate].
  destruct (query R A st "insertOne" [toInsertObject S m]) as [q|] eqn:Hq;
    cbn [Js.bind]; [|discriminate].
  intros [= <-] Hi He Hid.
  destruct (then_query_fulfilled _ _ _ _ _ _ Hq Hi He) as [-> Hs].
  split; [reflexivity|]. rewrite Hid in Hs. cbn [Js.bind] in Hs.
  exists (assign "_id" insertedId m). split; [exact Hs|]. split.
  - rewrite lookup_assign, String.eqb_refl. reflexivity.
  - intros k Hk. rewrite lookup_assign.
    destruct (String.eqb_spec k "_id"); [contradiction | reflexivity].
Qed.

(** X10. When the store reports no upserted identifier (the upsert
    updated a document that was there), [upsertOne] of the base adapter
    resolves to the model as [beforeSave(true)] left it, its [_id]
    untouched; with an identifier it sets [_id] to the identifier's
    string. *)
Theorem upsertOne_keeps_model (model : value) (x : run)
    (c : Store.call) (result upsertedId : value) :
  let m := runBeforeSave S true (construct S model) in
  BaseAdapter.upsertOne R A st model = Return x ->
  issued x = [c] -> exec st c = Fulfilled result ->
  prop result "upsertedId" = Return upsertedId ->
  (truthy upsertedId = false -> state x = Fulfilled (VObj m)) /\
  (truthy upsertedId = true ->
   forall id, prop upsertedId "_id" = Return id ->
              id <> VNull -> id <> VUndefined ->
              state x
              = Fulfilled (VObj (assign "_id" (VStr (idToString R id)) m))).
Proof.
  intros m. unfold BaseAdapter.upsertOne. fold m.
  destruct (prop (toUpsertObject S m) "$setOnInsert") as [qp|];
    cbn [Js.bind]; [|discriminate].
  destruct (assert _ _); cbn [Js.bind]; [|discriminate].
  destruct (assert _ _); cbn [Js.bind]; [|discriminate].
  match goal with
  | |- context [query R A st ?f ?a] =>
      destruct (query R A st f a) as [q|] eqn:Hq; cbn [Js.bind];
        [|discriminate]
  end.
  intros [= <-] Hi He Hu.
  destruct (then_query_fulfilled _ _ _ _ _ _ Hq Hi He) as [_ Hs].
  rewrite Hu in Hs. cbn [Js.bind] in Hs. split.
  - intros Ht. rewrite Ht in Hs. exact Hs.
  - intros Ht id Hid Hn1 Hn2. rewrite Ht, Hid in Hs. cbn [Js.bind] in Hs.
    destruct id; try contradiction; exact Hs.
Qed.

(** X11. [updateAll] and [updateAllSimple] refuse an empty document
    and otherwise always address the whole collection: the predicate
    they send is the empty one, whatever the model holds.  [deleteAll]
    has no guard: with the connection there it always sends
    [deleteMany] with the empty predicate. *)
Theorem whole_collection_calls (model : value) :
  let doc := toFormObject S (runBeforeSave S false (construct S model)) in
  (isEmpty R doc = true -> guardViolation (updateAll R A st model)) /\
  (isEmpty R (toSimpleObject R model) = true ->
   guardViolation (updateAllSimple R A st model)) /\
  (forall x c,
      updateAll R A st model = Return x \/
      updateAllSimple R A st model = Return x ->
      In c (issued x) -> filterOf c = Some (VObj [])) /\
  (exists x, deleteAll R A st = Return x /\
             (connected st A ->
              issued x = [Command (collectionName S) "deleteMany" [VObj []]])).
Proof.
  intros doc. split; [|split; [|split]].
  - intros H. unfold updateAll. fold doc. rewrite H. eexists. reflexivity.
  - intros H. unfold updateAllSimple. rewrite H. eexists. reflexivity.
  - intros x c [H|H]; revert H; [unfold updateAll | unfold updateAllSimple];
      cbv zeta;
      (destruct (assert _ _); cbn [Js.bind]; [|discriminate]);
      match goal with
      | |- context [query R A st ?f ?a] =>
          destruct (query R A st f a) as [q|] eqn:Hq; cbn [Js.bind];
            [|discriminate]
      end;
      intros [= <-]; simpl;
      destruct (query_issues R A st _ _ _ Hq) as [E|E]; rewrite E;
      simpl; intros [<-|[]] || intros []; reflexivity.
  - unfold deleteAll.
    destruct (query_returns R A st "deleteMany" [VObj []] eq_refl)
      as [q Hq].
    rewrite Hq. cbn [Js.bind]. eexists. split; [reflexivity|].
    intros [db Hc]. simpl.
    rewrite (query_connected R A st "deleteMany" [VObj []] db eq_refl Hc)
      in Hq.
    injection Hq as <-. reflexivity.
Qed.

(** X12. [exists] asks the store for a count bounded by a limit of 1
    and resolves to [true] exactly when that count is positive. *)
Theorem exists_is_bounded_count (form p db : value) (n : Z) :
  connect st (configKey A) = Fulfilled db ->
  idOrQueryObject R A (construct S VUndefined) form = Return p ->
  isEmpty R p = false ->
  exec st (FindCount (collectionName S) p 1) = Fulfilled (VNum n) ->
  issued (exists_ R A st form) = [FindCount (collectionName S) p 1] /\
  state (exists_ R A st form) = Fulfilled (VBool (0 <? n)) /\
  (state (exists_ R A st form) = Fulfilled (VBool true) <-> 0 < n).
Proof.
  intros Hc Hp He Hx. unfold exists_. rewrite Hc, Hp. cbn [Js.bind].
  rewrite He. cbn. rewrite Hx. cbn.
  split; [reflexivity|]. split; [reflexivity|].
  split.
  - intros [= H]. apply Z.ltb_lt, H.
  - intros H. apply Z.ltb_lt in H. rewrite H. reflexivity.
Qed.

(** X13. [exists] never throws and never rejects on its own account:
    when the connection does not come, when the form is [null], when
    its [_id] cannot be parsed, or when the predicate resolves to an
    empty one, nothing is sent and the promise never settles. *)
Theorem exists_hangs_on_failure (form : value) :
  (forall db, connect st (configKey A) <> Fulfilled db) \/
  (exists e, idOrQueryObject R A (construct S VUndefined) form = Throw e) \/
  (exists p, idOrQueryObject R A (construct S VUndefined) form = Return p /\
             isEmpty R p = true) ->
  issued (exists_ R A st form) = [] /\
  state (exists_ R A st form) = Pending.
Proof.
  unfold exists_.
  destruct (connect st (configKey A)) as [db| |] eqn:Hc; auto.
  intros [H|[[e H]|(p & H & He)]].
  - destruct (H db). reflexivity.
  - rewrite H. auto.
  - rewrite H. cbn [Js.bind]. rewrite He. auto.
Qed.

(** X14. A form whose [_id] the driver cannot parse makes [getOne]
    and [deleteOne] throw the driver's error at once, before any
    command; so does a [null] form, with a TypeError. *)
Theorem unparsable_identifier_throws (form opts : value) (e : error) :
  idOrQueryObject R A (construct S VUndefined) form = Throw e ->
  getOne R A st form opts = Throw e /\
  deleteOne R A st form = Throw e /\
  ((exists id, prop form "_id" = Return id /\ truthy id = true /\
               ObjectID R id = Throw e) \/
   (form = VNull \/ form = VUndefined)).
Proof.
  intros H. unfold getOne, deleteOne. rewrite H. cbn [Js.bind].
  split; [reflexivity|]. split; [reflexivity|].
  revert H. unfold idOrQueryObject.
  destruct (prop form "_id") as [id|e'] eqn:Hp; cbn [Js.bind].
  - destruct (truthy id) eqn:Ht; [|discriminate].
    destruct (ObjectID R id) eqn:Ho; cbn [Js.bind]; [discriminate|].
    intros [= <-]. left. eauto.
  - intros _. right. destruct form; simpl in Hp; try discriminate; auto.
Qed.

End SingleOperations.

Lemma insertOne_returns_model_witness :
  exists x,
    BaseAdapter.insertOne Sample.runtime Sample.users
      (Sample.replying (VObj [("insertedId", VStr Sample.oid24)])) Sample.ann
    = Return x /\
    exists inst,
      state x = Fulfilled (VObj inst) /\
      lookup "_id" inst = Some (VStr Sample.oid24) /\
      lookup "name" inst = Some (VStr "ann").
Proof.
  eexists. split; [vm_compute; reflexivity|].
  destruct (insertOne_returns_model Sample.runtime Sample.users
              (Sample.replying (VObj [("insertedId", VStr Sample.oid24)]))
              Sample.ann _
              (Command "users" "insertOne"
                 [VObj [("name", VStr "ann"); ("isNew", VBool true)]])
              (VObj [("insertedId", VStr Sample.oid24)])
              (VStr Sample.oid24) eq_refl eq_refl eq_refl eq_refl)
    as (_ & inst & Hs & Hid & Hk).
  exists inst. split; [exact Hs|]. split; [exact Hid|].
  rewrite Hk by discriminate. reflexivity.
Defined.

Lemma upsertOne_keeps_model_witness :
  exists x,
    BaseAdapter.upsertOne Sample.runtime Sample.users
      (Sample.replying (VObj [("upsertedId", VNull)])) Sample.byId
    = Return x /\
    state x = Fulfilled (VObj [("_id", VStr Sample.oid24);
                               ("name", VStr "ann");
                               ("isNew", VBool true)]).
Proof.
  eexists. split; [vm_compute; reflexivity|].
  refine (proj1 (upsertOne_keeps_model Sample.runtime Sample.users
            (Sample.replying (VObj [("upsertedId", VNull)])) Sample.byId _
            (Command "users" "updateOne"
               [Sample.byId;
                VObj [("$setOnInsert", Sample.byId);
                      ("$set", VObj [("_id", VStr Sample.oid24);
                                     ("name", VStr "ann");
                                     ("isNew", VBool true)])];
                VObj [("upsert", VBool true)]])
            (VObj [("upsertedId", VNull)]) VNull _ _ _ _) _);
    reflexivity.
Defined.

Lemma whole_collection_calls_witness :
  Props.guardViolation
    (BaseAdapter.updateAllSimple Sample.runtime Sample.users Sample.counted
       (VObj [("name", VNull)])) /\
  exists x,
    BaseAdapter.updateAll Sample.runtime Sample.users Sample.counted
      Sample.byId = Return x /\
    map Props.filterOf (issued x) = [Some (VObj [])].
Proof.
  destruct (whole_collection_calls Sample.runtime Sample.users Sample.counted
              (VObj [("name", VNull)])) as (_ & H & _).
  split; [apply H; reflexivity|].
  destruct (whole_collection_calls Sample.runtime Sample.users Sample.counted
              Sample.byId) as (_ & _ & H' & _).
  eexists. split; [vm_compute; reflexivity|].
  cbn [issued map].
  refine (f_equal (fun o => [o]) (H' _ _ _ _)).
  - left. vm_compute. reflexivity.
  - left. reflexivity.
Defined.

Lemma exists_is_bounded_count_witness :
  state (BaseAdapter.exists_ Sample.runtime Sample.users
           (Sample.replying (VNum 2)) Sample.byId)
  = Fulfilled (VBool true) /\
  state (BaseAdapter.exists_ Sample.runtime Sample.users
           (Sample.replying (VNum 0)) Sample.byId)
  = Fulfilled (VBool false).
Proof.
  split.
  - apply (exists_is_bounded_count Sample.runtime Sample.users
             (Sample.replying (VNum 2)) Sample.byId Sample.parsedId
             (VObj []) 2); reflexivity.
  - apply (exists_is_bounded_count Sample.runtime Sample.users
             (Sample.replying (VNum 0)) Sample.byId Sample.parsedId
             (VObj []) 0); reflexivity.
Defined.

Lemma exists_hangs_on_failure_witness :
  state (BaseAdapter.exists_ Sample.runtime Sample.logs
           (Sample.replying (VNum 2)) (VObj [("age", VNull)]))
  = Pending /\
  state (BaseAdapter.exists_ Sample.runtime Sample.logs
           (Sample.replying (VNum 2)) (VObj [("_id", VStr "short")]))
  = Pending.
Proof.
  split.
  - apply (exists_hangs_on_failure Sample.runtime Sample.logs
             (Sample.replying (VNum 2)) (VObj [("age", VNull)])).
    right. right. exists (VObj []). split; reflexivity.
  - apply (exists_hangs_on_failure Sample.runtime Sample.logs
             (Sample.replying (VNum 2)) (VObj [("_id", VStr "short")])).
    right. left. eexists. reflexivity.
Defined.

Lemma unparsable_identifier_throws_witness :
  exists e,
    BaseAdapter.getOne Sample.runtime Sample.users (Sample.replying VNull)
      (VObj [("_id", VStr "short")]) VUndefined = Throw e /\
    BaseAdapter.deleteOne Sample.runtime Sample.users (Sample.replying VNull)
      (VObj [("_id", VStr "short")]) = Throw e.
Proof.
  eexists.
  destruct (unparsable_identifier_throws Sample.runtime Sample.users
              (Sample.replying VNull) (VObj [("_id", VStr "short")])
              VUndefined _ eq_refl) as (H1 & H2 & _).
  split; [exact H1 | exact H2].
Defined.

(** ** Reading many documents *)

Section GetMany.

Import BaseAdapter BaseAdapterReads Props Shapes.

Variable R : Runtime.
Variable A : Adapter.
Variable st : Store.t.
Variable toArray : Cursor.server.

Local Abbreviation S := (modelClass A).


(** X15. [getMany] never throws and never rejects on its own account:
    when the connection does not come, when the predicate resolves to
    an empty one, or when the order given cannot be built, no cursor is
    read and the promise never settles. *)
Theorem getMany_hangs_on_failure (form opts : value) :
  (forall db, connect st (configKey A) <> Fulfilled db) \/
  isEmpty R (queryObject R A (construct S VUndefined) form) = true \/
  (exists e, MongoHelpers.buildSortOptions S (or_else opts (VObj []))
             = Throw e) ->
  getMany R A st toArray form opts = Cursor.hung.
Proof.
  unfold getMany.
  destruct (connect st (configKey A)) as [db| |] eqn:Hc; auto.
  intros [H|[H|[e H]]].
  - destruct (H db). reflexivity.
  - rewrite H. reflexivity.
  - destruct (assert _ _); cbn [Js.bind]; [|reflexivity].
    rewrite H. reflexivity.
Qed.


End GetMany.

Lemma getMany_hangs_on_failure_witness :
  BaseAdapterReads.getMany Sample.runtime Sample.logs (Sample.replying VNull)
    Sample2.twoDocs (VObj [("age", VNull)]) VUndefined
  = Cursor.hung /\
  BaseAdapterReads.getMany Sample.runtime Sample.logs (Sample.replying VNull)
    Sample2.twoDocs Sample.ann (VObj [("order", VArr [VNum 5])])
  = Cursor.hung.
Proof.
  split.
  - apply getMany_hangs_on_failure. right. left. reflexivity.
  - apply getMany_hangs_on_failure. right. right. eexists. reflexivity.
Defined.


(** ** The connection pool *)

Section ConnectionPool.

Import Pool Props.

Variable E : Env.

Lemma caught_not_fulfilled (debug : bool) (p : settled) (db : value) :
  (forall v, p <> Fulfilled v) -> caught debug p <> Fulfilled db.
Proof.
  intros H. destruct p as [v|e|]; simpl.
  - destruct (H v). reflexivity.
  - destruct (isMongoError e); [discriminate|].
    destruct debug; discriminate.
  - discriminate.
Qed.

(** The three ways [connect] ends. *)
Lemma connect_cases (dbs : list (string * value)) (name : option string) :
  let n := effectiveName name in
  let o := connect E dbs name in
  (truthy (cached E dbs n) = true /\
   o = {| handle := Fulfilled (cached E dbs n); dbs := dbs; dialled := [] |}) \/
  (truthy (cached E dbs n) = false /\
   (forall db, handle o <> Fulfilled db) /\ Pool.dbs o = dbs /\
   (List.length (dialled o) <= 1)%nat) \/
  (truthy (cached E dbs n) = false /\
   exists db call,
     o = {| handle := Fulfilled db; dbs := assign n db dbs;
            dialled := [call] |}).
Proof.
  intros n o. unfold o, connect. fold n.
  destruct (truthy (cached E dbs n)) eqn:Ht; [left; auto|].
  right.
  destruct (configGet E ("db.mongodb." ++ n)) as [cfg|e]; cbn [Js.bind];
    [|left; simpl; repeat split; auto; discriminate].
  destruct (prop cfg "connection") as [url|e]; cbn [Js.bind];
    [|left; simpl; repeat split; auto; discriminate].
  destruct (connectOptions E cfg) as [opts|e]; cbn [Js.bind];
    [|left; simpl; repeat split; auto; discriminate].
  cbv iota beta.
  destruct (clientConnect E url opts) as [db|e|] eqn:Hd.
  - destruct (onConnected E cfg) as [[]|e].
    + right. split; [reflexivity|]. eauto.
    + left. split; [reflexivity|]. split; [|split; [reflexivity | simpl; auto]].
      intros db'. cbn [handle]. apply caught_not_fulfilled.
      intros v. discriminate.
  - left. split; [reflexivity|]. split; [|split; [reflexivity | simpl; auto]].
    intros db'. cbn [handle]. apply caught_not_fulfilled.
    intros v. discriminate.
  - left. split; [reflexivity|]. split; [|split; [reflexivity | simpl; auto]].
    intros db'. cbn [handle]. apply caught_not_fulfilled.
    intros v. discriminate.
Qed.

(** X17. Once [connect] has given a handle for a name, connecting
    again under that name gives the same handle from the cache, without
    calling the client and without touching the cache. *)
Theorem connect_is_memoised (dbs : list (string * value))
    (name : option string) (db : value) :
  effectiveName name <> "length" ->
  handle (connect E dbs name) = Fulfilled db ->
  truthy db = true ->
  connect E (Pool.dbs (connect E dbs name)) name
  = {| handle := Fulfilled db;
       dbs := Pool.dbs (connect E dbs name);
       dialled := [] |}.
Proof.
  intros _ Hh Ht.
  destruct (connect_cases dbs name) as [(Hc & Ho)|[(_ & Hn & _)|(Hc & db' & call & Ho)]];
    cbv zeta in *.
  - rewrite Ho in Hh |- *. simpl in Hh |- *. injection Hh as <-.
    unfold connect. rewrite Hc. reflexivity.
  - destruct (Hn db Hh).
  - rewrite Ho in Hh |- *. simpl in Hh |- *. injection Hh as ->.
    unfold connect.
    assert (Hl : cached E (assign (effectiveName name) db dbs)
                   (effectiveName name) = db).
    { unfold cached. rewrite lookup_assign, String.eqb_refl. reflexivity. }
    rewrite Hl, Ht. reflexivity.
Qed.

(** X18. A connection that fails is not remembered: the cache is
    left as it was, so that the next call tries again; and whatever
    the outcome, the client is called at most once and the handles
    kept under other names are not touched. *)
Theorem connect_failure_leaves_cache (dbs : list (string * value))
    (name : option string) :
  ((forall db, handle (connect E dbs name) <> Fulfilled db) ->
   Pool.dbs (connect E dbs name) = dbs) /\
  (List.length (dialled (connect E dbs name)) <= 1)%nat /\
  (forall k, k <> effectiveName name ->
     lookup k (Pool.dbs (connect E dbs name)) = lookup k dbs).
Proof.
  destruct (connect_cases dbs name) as [(Hc & Ho)|[(_ & Hn & Hd & Hl)|(Hc & db' & call & Ho)]];
    cbv zeta in *.
  - rewrite Ho. simpl. auto.
  - rewrite Hd. auto.
  - rewrite Ho. simpl. split; [|split; [auto|]].
    + intros H. destruct (H db'). reflexivity.
    + intros k Hk. rewrite lookup_assign.
      destruct (String.eqb_spec k (effectiveName name)); [contradiction|].
      reflexivity.
Qed.

Lemma connectOptions_server (cfg opts : value) :
  connectOptions E cfg = Return opts ->
  get opts "promiseLibrary" = BPromise E /\
  (truthy (get (get cfg "options") "server") = true ->
   get opts "server" = defaultServerCfg).
Proof.
  unfold connectOptions.
  destruct (prop cfg "options") as [options|] eqn:Hp; cbn [Js.bind];
    [|discriminate].
  assert (Hg : get cfg "options" = options) by (unfold get; rewrite Hp; reflexivity).
  rewrite Hg.
  destruct (setProp _ "promiseLibrary" _) as [o1|] eqn:H1; cbn [Js.bind];
    [|discriminate].
  assert (exists ps, o1 = VObj (assign "promiseLibrary" (BPromise E) ps) /\
                     (truthy options = true -> options = VObj ps))
    as (ps & -> & Hps).
  { destruct (truthy options) eqn:Ht; simpl in H1.
    - destruct options; simpl in H1; try discriminate.
      injection H1 as <-. eauto.
    - injection H1 as <-. exists []. split; [reflexivity | discriminate]. }
  cbn [prop]. rewrite lookup_assign. cbn [String.eqb Ascii.eqb Bool.eqb].
  cbn [Js.bind].
  set (server := match lookup "server" ps with
                 | Some x => x
                 | None => VUndefined
                 end).
  assert (Hfinal : forall v o,
            setProp (VObj (assign "promiseLibrary" (BPromise E) ps)) "server" v
            = Return o ->
            get o "promiseLibrary" = BPromise E /\ get o "server" = v).
  { intros v o [= <-]. unfold get. cbn [prop].
    rewrite !lookup_assign. split; reflexivity. }
  destruct (truthy server) eqn:Hs.
  - intros H. destruct (Hfinal _ _ H) as [Ha Hb]. split; [exact Ha|].
    intros _. exact Hb.
  - destruct (applyToDefaults E defaultServerCfg server) as [merged|];
      cbn [Js.bind]; [|discriminate].
    intros H. destruct (Hfinal _ _ H) as [Ha _]. split; [exact Ha|].
    intros Hc. exfalso.
    assert (Hopt : truthy options = true).
    { destruct options; simpl in Hc |- *; try discriminate; reflexivity. }
    rewrite (Hps Hopt) in Hc. unfold get in Hc. simpl in Hc.
    fold server in Hc. congruence.
Qed.

(** X19. A server section in the configured options never reaches the
    client: whenever the configuration has one, the options the client
    is called with carry the built-in socket time-outs in its place,
    together with the promise library. *)
Theorem custom_server_config_is_discarded (dbs : list (string * value))
    (name : option string) (cfg url opts : value) :
  configGet E ("db.mongodb." ++ effectiveName name) = Return cfg ->
  truthy (get (get cfg "options") "server") = true ->
  In (url, opts) (dialled (connect E dbs name)) ->
  get opts "server" = defaultServerCfg /\
  get opts "promiseLibrary" = BPromise E /\
  url = get cfg "connection".
Proof.
  intros Hcfg Hs. unfold connect.
  destruct (truthy (cached E dbs (effectiveName name))); [intros []|].
  rewrite Hcfg. cbn [Js.bind].
  destruct (prop cfg "connection") as [u|] eqn:Hu; cbn [Js.bind];
    [|intros []].
  destruct (connectOptions E cfg) as [o|] eqn:Ho; cbn [Js.bind];
    [|intros []].
  destruct (connectOptions_server _ _ Ho) as [Hp Hd].
  assert (G : In (url, opts) [(u, o)] ->
              get opts "server" = defaultServerCfg /\
              get opts "promiseLibrary" = BPromise E /\
              url = get cfg "connection").
  { intros [[= <- <-]|[]]. split; [apply Hd, Hs|]. split; [exact Hp|].
    unfold get. rewrite Hu. reflexivity. }
  destruct (clientConnect E u o); [destruct (onConnected E cfg)| |]; exact G.
Qed.

End ConnectionPool.

Lemma connect_is_memoised_witness :
  Pool.connect Sample2.poolEnv
    (Pool.dbs (Pool.connect Sample2.poolEnv [] None)) (Some "default")
  = {| Pool.handle :=
         Fulfilled (VObj [("db", VStr "mongodb://localhost/app")]);
       Pool.dbs :=
         [("default", VObj [("db", VStr "mongodb://localhost/app")])];
       Pool.dialled := [] |}.
Proof.
  apply (connect_is_memoised Sample2.poolEnv [] None).
  - discriminate.
  - reflexivity.
  - reflexivity.
Defined.

Lemma connect_failure_leaves_cache_witness :
  Pool.handle (Pool.connect Sample2.poolEnv [] (Some "reports"))
  = Rejected (StoreError true (VStr "ECONNREFUSED")) /\
  Pool.dbs (Pool.connect Sample2.poolEnv [] (Some "reports")) = [].
Proof.
  split; [reflexivity|].
  apply (connect_failure_leaves_cache Sample2.poolEnv [] (Some "reports")).
  intros db. discriminate.
Defined.

Lemma custom_server_config_is_discarded_witness :
  exists url opts,
    Pool.dialled (Pool.connect Sample2.poolEnv [] None) = [(url, opts)] /\
    Props.get opts "server" = Pool.defaultServerCfg /\
    Props.get opts "server" <> Sample2.customServer.
Proof.
  eexists. eexists. split; [reflexivity|].
  destruct (custom_server_config_is_discarded Sample2.poolEnv [] None
              _ _ _ eq_refl eq_refl (or_introl eq_refl)) as (H & _).
  split; [exact H|]. rewrite H. discriminate.
Defined.

(** ** The service layer *)

Section Services.

Import BaseAdapter Props Shapes.

Variable E : BaseService.Env.
Variable R : Runtime.
Variable A : Adapter.
Variable st : Store.t.

Local Abbreviation S := (modelClass A).

Lemma through_guard (response : settled -> BaseService.reply)
    (call : result run) :
  guardViolation call ->
  exists msg, BaseService.through response call = Throw (AssertionError msg).
Proof. intros [msg ->]. exists msg. reflexivity. Qed.

(** X20. A guard failure is not turned into a reply: the service
    methods throw what the adapter throws, and the callback is never
    called.  So it is for a delete or a read whose form resolves to the
    empty predicate, and for an insert or an update-all of an empty
    document. *)
Theorem service_throws_guard_failures (form opts : value) :
  (isEmpty R (toSimpleObject R form) = true ->
   (exists msg, BaseService.deleteOneSimple E R A st form
                = Throw (AssertionError msg)) /\
   (exists msg, BaseService.deleteManySimple E R A st form
                = Throw (AssertionError msg)) /\
   (exists msg, BaseService.getOneSimple E R A st form opts
                = Throw (AssertionError msg)) /\
   (exists msg, BaseService.updateAllSimple E R A st form
                = Throw (AssertionError msg))) /\
  (isEmpty R (queryObject R A (construct S VUndefined) form) = true ->
   exists msg, BaseService.deleteMany E R A st form
               = Throw (AssertionError msg)) /\
  (isEmpty R (toInsertObject S (runBeforeSave S true (construct S form)))
   = true ->
   exists msg, BaseService.insertOne E R A st form
               = Throw (AssertionError msg)).
Proof.
  split; [|split].
  - intros H.
    destruct (guarded_mutations R A st form form) as (_ & _ & _ & Hs & _).
    destruct (Hs H) as [H1 H2].
    split; [apply through_guard, H1|].
    split; [apply through_guard, H2|].
    split.
    + apply through_guard. unfold getOneSimple. rewrite H.
      eexists. reflexivity.
    + apply through_guard. unfold updateAllSimple. rewrite H.
      eexists. reflexivity.
  - intros H.
    destruct (guarded_mutations R A st form form) as (_ & _ & _ & _ & Hd).
    apply through_guard, Hd, H.
  - intros H.
    destruct (guarded_mutations R A st form form) as (Hi & _).
    apply through_guard, Hi, H.
Qed.

(** X21. Through the service, [getOneAndUpdate] and
    [getOneAndUpsert] answer with the not-found exception both when the
    store's envelope has a falsy [ok] and when its [value] is falsy (no
    document matched); otherwise they answer with the thrift form of
    the document. *)
Theorem service_find_and_modify (form query_ opts : value) (x : run)
    (c : Store.call) (envelope ok : value) :
  issued x = [c] ->
  exec st c = Fulfilled envelope ->
  prop envelope "ok" = Return ok ->
  let answer :=
    if truthy ok && truthy (get envelope "value")
    then BaseService.Replied VNull
           (BaseService.toThriftObject E (construct S (get envelope "value")))
    else BaseService.notFoundReply E S in
  (getOneAndUpdate R A st form query_ opts = Return x ->
   BaseService.getOneAndUpdate E R A st form query_ opts = Return answer) /\
  (getOneAndUpsert R A st form query_ opts = Return x ->
   BaseService.getOneAndUpsert E R A st form query_ opts = Return answer).
Proof.
  intros Hi He Hok answer.
  assert (G : viaQuery R A st unwrapEnvelope x ->
              BaseService.responseGetOne E S (state x) = answer).
  { intros (f & args & q & Hq & ->).
    destruct (then_query_fulfilled R A st _ _ _ _ _ _ Hq Hi He) as [_ Hs].
    rewrite Hs, (unwrapEnvelope_get _ _ Hok). unfold answer, BaseService.notFoundReply.
    unfold BaseService.responseGetOne, BaseService.respond.
    destruct (truthy ok); simpl; [|reflexivity].
    destruct (truthy (get envelope "value")); reflexivity. }
  split; intros H.
  - unfold BaseService.getOneAndUpdate, BaseService.through. rewrite H.
    cbn [Js.bind]. rewrite G; [reflexivity|].
    revert H. unfold getOneAndUpdate. cbv zeta.
    repeat match goal with
           | |- Js.bind ?m _ = Return _ -> _ =>
               destruct m eqn:?; cbn [Js.bind]; [|discriminate]
           end.
    intros [= <-]. do 3 eexists. split; [eassumption | reflexivity].
  - unfold BaseService.getOneAndUpsert, BaseService.through. rewrite H.
    cbn [Js.bind]. rewrite G; [reflexivity|].
    revert H. unfold getOneAndUpsert. cbv zeta.
    repeat match goal with
           | |- Js.bind ?m _ = Return _ -> _ =>
               destruct m eqn:?; cbn [Js.bind]; [|discriminate]
           end.
    intros [= <-]. do 3 eexists. split; [eassumption | reflexivity].
Qed.

(** X22. A store rejection on a call that goes through [query]
    reaches the callback as the exception built from it when it is a
    MongoError; any other error does so only when neither the adapter
    nor the service runs in debug mode: with the adapter in debug mode
    the callback is never called, the promise staying pending, and
    with only the service in debug mode the error is thrown again and
    nobody catches it. *)
Theorem service_store_errors (response : settled -> BaseService.reply)
    (r : result run) (x : run) (c : Store.call) (e : error) :
  response = BaseService.responseDefault E S \/
  response = BaseService.responseOne E S \/
  response = BaseService.responseGetOne E S \/
  response = BaseService.responseMany E S ->
  queryCall R A st r -> r = Return x ->
  issued x = [c] -> exec st c = Rejected e ->
  BaseService.through response r
  = Return
      (if isMongoError e then BaseService.responseError E S e
       else if isDebug R then BaseService.Waiting
       else if BaseService.isDebug E then BaseService.Unhandled e
       else BaseService.responseError E S e).
Proof.
  intros Hr Hq -> Hi He. unfold BaseService.through. cbn [Js.bind].
  destruct (queryCall_viaQuery R A st _ x Hq eq_refl) as [k Hk].
  assert (Hs : state x = if isMongoError e then Rejected e
                         else if isDebug R then Pending else Rejected e).
  { destruct (connect st (configKey A)) as [db| |] eqn:Hc.
    - destruct (viaQuery_connected R A st k x db Hk Hc) as (f & a & Hi' & Hs & _).
      rewrite Hi' in Hi. injection Hi as <-. rewrite Hs, He. simpl.
      destruct (isMongoError e); [reflexivity|].
      destruct (isDebug R); reflexivity.
    - destruct (viaQuery_disconnected R A st k x Hk) as (Hi' & _);
        [congruence|]. rewrite Hi' in Hi. discriminate.
    - destruct (viaQuery_disconnected R A st k x Hk) as (Hi' & _);
        [congruence|]. rewrite Hi' in Hi. discriminate. }
  rewrite Hs.
  destruct Hr as [ -> | [ -> | [ -> | -> ] ] ];
    unfold BaseService.responseDefault, BaseService.responseOne,
           BaseService.responseGetOne, BaseService.responseMany,
           BaseService.respond, BaseService.catchException;
    destruct (isMongoError e) eqn:Hm; try (rewrite Hm; reflexivity);
    destruct (isDebug R); try reflexivity; rewrite Hm; reflexivity.
Qed.

End Services.

Section ProximityService.

Import BaseAdapter UserActivityAdapter Props.

Variable E : BaseService.Env.
Variable U : UserActivityAdapter.Adapter.
Variable st : Store.t.

Local Abbreviation S := (modelClass (base U)).

(** X23. When the store gives no document, the service's
    [findOneAround] does not answer with [null] or with not-found:
    the adapter resolves to [null], reading [toThriftObject] off it
    fails, and the callback gets the exception built from that
    TypeError or, in debug mode, is never called. *)
Theorem service_findOneAround_nobody (geoParams actParams db : value)
    (queryData : list value) :
  connect st (configKey (base U)) = Fulfilled db ->
  findAroundQuery U geoParams actParams = Return queryData ->
  exec st (Aggregate (collectionName S)
             (queryData ++ [VObj [("$limit", VNum 1)]]))
  = Fulfilled (VArr []) ->
  let e := TypeError "Cannot read property 'toThriftObject'" in
  state (UserActivityAdapter.findOneAround U st geoParams actParams)
  = Fulfilled VNull /\
  UserActivityService.findOneAround E U st geoParams actParams
  = if BaseService.isDebug E then BaseService.Unhandled e
    else BaseService.responseError E S e.
Proof.
  intros Hc Hq He e.
  assert (Hs : state (UserActivityAdapter.findOneAround U st geoParams
                        actParams) = Fulfilled VNull).
  { unfold UserActivityAdapter.findOneAround, aggregate.
    rewrite Hc, Hq. cbn [Js.bind state]. rewrite He. reflexivity. }
  split; [exact Hs|].
  unfold UserActivityService.findOneAround. rewrite Hs. reflexivity.
Qed.

(** X24. The service's [findManyAround] answers with the thrift form
    of the [activity] member of each group the store gives, in the
    store's order, one per group; a group that is [null] sends the
    whole call down the error path. *)
Theorem service_findManyAround (geoParams actParams db : value)
    (queryData groups : list value) :
  connect st (configKey (base U)) = Fulfilled db ->
  findAroundQuery U geoParams actParams = Return queryData ->
  exec st (Aggregate (collectionName S) queryData)
  = Fulfilled (VArr groups) ->
  UserActivityService.findManyAround E U st geoParams actParams
  = match mapM (fun element => prop element "activity") groups with
    | Return docs =>
        BaseService.Replied VNull
          (VArr (map (fun d => BaseService.toThriftObject E (construct S d))
                   docs))
    | Throw e =>
        if isMongoError e then BaseService.responseError E S e
        else BaseService.catchException E S e
    end.
Proof.
  intros Hc Hq He.
  unfold UserActivityService.findManyAround,
         UserActivityAdapter.findManyAround, aggregate.
  rewrite Hc, Hq. cbn [state]. rewrite He. cbn [settle_then].
  destruct (mapM _ groups) as [docs|e]; reflexivity.
Qed.

End ProximityService.

Lemma service_throws_guard_failures_witness :
  exists msg,
    BaseService.deleteOneSimple (Sample2.serviceEnv false) Sample.runtime
      Sample.logs Sample.counted (VObj [("age", VNull)])
    = Throw (AssertionError msg).
Proof.
  destruct (service_throws_guard_failures (Sample2.serviceEnv false)
              Sample.runtime Sample.logs Sample.counted
              (VObj [("age", VNull)]) VUndefined) as [H _].
  destruct (H eq_refl) as [H1 _]. exact H1.
Defined.

Lemma service_find_and_modify_witness :
  BaseService.getOneAndUpdate (Sample2.serviceEnv false) Sample.runtime
    Sample.users (Sample.replying Sample.notFound)
    Sample.aged Sample.ann (VObj [])
  = Return (BaseService.Replied
              (VObj [("code", VStr "404");
                     ("ctx", VObj [("table", VStr "users")])])
              VUndefined).
Proof.
  refine (proj1 (service_find_and_modify (Sample2.serviceEnv false)
            Sample.runtime Sample.users (Sample.replying Sample.notFound)
            Sample.aged Sample.ann (VObj []) _
            (Command "users" "findOneAndUpdate"
               [Sample.ann;
                VObj [("$set", VObj [("age", VNum 3);
                                     ("isNew", VBool false)])];
                VObj []])
            Sample.notFound (VNum 1) _ _ _) _).
  4: vm_compute; reflexivity.
  all: reflexivity.
Defined.

Lemma service_store_errors_witness :
  BaseService.deleteOneSimple (Sample2.serviceEnv false) Sample.runtime
    Sample.users (Sample.sideEffectsFail VNull) Sample.ann
  = Return (BaseService.Replied
              (VObj [("code", VStr "500");
                     ("ctx", VObj [("type", VStr "mongo");
                                   ("table", VStr "users")])])
              VUndefined).
Proof.
  refine (service_store_errors (Sample2.serviceEnv false) Sample.runtime
            Sample.users (Sample.sideEffectsFail VNull)
            (BaseService.responseDefault (Sample2.serviceEnv false)
               Sample.userSchema)
            (BaseAdapter.deleteOneSimple Sample.runtime Sample.users
               (Sample.sideEffectsFail VNull) Sample.ann) _
            (Command "users" "deleteOne" [Sample.ann])
            (StoreError true (VStr "E11000")) _ _ _ _ _).
  - left. reflexivity.
  - right. left. right. left. exists Sample.ann. reflexivity.
  - vm_compute. reflexivity.
  - reflexivity.
  - reflexivity.
Defined.

Lemma service_findOneAround_nobody_witness :
  UserActivityService.findOneAround (Sample2.serviceEnv false)
    Sample.activity (Sample.replying (VArr []))
    Sample.here Sample.driving
  = BaseService.Replied
      (VObj [("code", VStr "500");
             ("ctx", VObj [("type", VStr "mongo");
                           ("table", VStr "user_activities")])])
      VUndefined.
Proof.
  apply (service_findOneAround_nobody (Sample2.serviceEnv false)
           Sample.activity (Sample.replying (VArr []))
           Sample.here Sample.driving (VObj []) _
           eq_refl eq_refl eq_refl).
Defined.

Lemma service_findManyAround_witness :
  UserActivityService.findManyAround (Sample2.serviceEnv false)
    Sample.activity
    (Sample.replying
       (VArr [VObj [("_id", VNum 1); ("activity", Sample.sample 1 5)];
              VObj [("_id", VNum 2); ("activity", Sample.sample 2 4)]]))
    Sample.here Sample.driving
  = BaseService.Replied VNull (VArr [Sample.sample 1 5; Sample.sample 2 4]).
Proof.
  apply (service_findManyAround (Sample2.serviceEnv false)
           Sample.activity
           (Sample.replying
              (VArr [VObj [("_id", VNum 1); ("activity", Sample.sample 1 5)];
                     VObj [("_id", VNum 2); ("activity", Sample.sample 2 4)]]))
           Sample.here Sample.driving (VObj []) _ _
           eq_refl eq_refl eq_refl).
Defined.
